(** * Codu: the test-run loop and the result classifier

    A shallow embedding of the two variants of the [App] component of the
    repository:

    - [src/client/src/App.tsx], the variant with the [parseResult] helper
      (module [Client] below);
    - [src/unnamed/part_000], the variant that classifies inline inside
      [runCode] and updates the result array slot by slot (module
      [Part000] below).

    JavaScript strings are sequences of UTF-16 code units, [undefined]
    and [null] are kept apart from the empty string, React state is an
    explicit store, and the remote judging service is an oracle giving
    the outcome of every [axios.post] call.  Modules [Client] and
    [Part000] follow a run on its own; module [Amid] follows it amid
    the problem and language changes that the page handles while a call
    is pending. *)

From Stdlib Require Import Ascii String ZArith NArith Decimal.
From stdpp Require Import base decidable option list gmap.

Local Open Scope N_scope.
Local Open Scope nat_scope.

(** ** JavaScript values *)

Module JS.

(** A string is a list of UTF-16 code units. *)
Abbreviation code_unit := N (only parsing).
Abbreviation jsstring := (list N) (only parsing).

(** A literal of the source whose characters are all ASCII. *)
Definition lit (s : string) : jsstring :=
  (λ a : ascii, N_of_ascii a) <$> list_ascii_of_string s.

(** The line feed written [\n] in the source. *)
Definition LF : jsstring := [10%N].

(** An optional property of a JSON-like object: missing ([undefined]),
    [null], or a value. *)
Inductive optional (A : Type) : Type :=
| Undefined : optional A
| Null : optional A
| Val (a : A) : optional A.
Global Arguments Undefined {A}.
Global Arguments Null {A}.
Global Arguments Val {A} a.

(** Truthiness of an optional string: [undefined], [null] and the
    empty string are falsy.  A truthy value is handed back as the
    string it is, so that a method can be called on it. *)
Definition truthy (v : optional jsstring) : option jsstring :=
  match v with
  | Val (c :: s) => Some (c :: s)
  | _ => None
  end.

(** [WhiteSpace] and [LineTerminator] of ECMAScript: the code points
    that [String.prototype.trim] strips. *)
Definition is_space (c : code_unit) : bool :=
  ((9 <=? c) && (c <=? 13))%N          (* TAB LF VT FF CR *)
  || (c =? 32)%N                       (* SPACE *)
  || (c =? 160)%N                      (* NO-BREAK SPACE *)
  || (c =? 5760)%N                     (* U+1680 *)
  || ((8192 <=? c) && (c <=? 8202))%N  (* U+2000 .. U+200A *)
  || (c =? 8232)%N || (c =? 8233)%N    (* U+2028 U+2029 *)
  || (c =? 8239)%N                     (* U+202F *)
  || (c =? 8287)%N                     (* U+205F *)
  || (c =? 12288)%N                    (* U+3000 *)
  || (c =? 65279)%N.                   (* U+FEFF *)

Fixpoint trimStart (s : jsstring) : jsstring :=
  match s with
  | c :: s' => if is_space c then trimStart s' else s
  | [] => []
  end.

Definition trimEnd (s : jsstring) : jsstring :=
  reverse (trimStart (reverse s)).

(** [s.trim()] *)
Definition trim (s : jsstring) : jsstring := trimEnd (trimStart s).

(** Decimal digits of a number, most significant first. *)
Fixpoint digits (d : Decimal.uint) : jsstring :=
  match d with
  | Nil => []
  | D0 d => 48%N :: digits d
  | D1 d => 49%N :: digits d
  | D2 d => 50%N :: digits d
  | D3 d => 51%N :: digits d
  | D4 d => 52%N :: digits d
  | D5 d => 53%N :: digits d
  | D6 d => 54%N :: digits d
  | D7 d => 55%N :: digits d
  | D8 d => 56%N :: digits d
  | D9 d => 57%N :: digits d
  end.

(** [`${n}`] for an array index or a test number [n]. *)
Definition toString (n : nat) : jsstring := digits (Nat.to_uint n).

(** An array whose elements may be holes (read as [undefined]). *)
Abbreviation array A := (list (option A)) (only parsing).

(** [a[i] = x] on a copy of [a]: in range the slot is overwritten, past
    the end the array grows and the gap is left as holes. *)
Definition array_set {A} (i : nat) (x : A) (a : array A) : array A :=
  if decide (i < length a) then <[i := Some x]> a
  else a ++ replicate (i - length a) None ++ [Some x].

End JS.
Import JS.

(** ** Types shared by the two variants *)

Inductive Language : Type := python | javascript | cpp.

Module TestCase.
Record t : Type := mk { input : jsstring; expectedOutput : jsstring }.
End TestCase.

Module TestSuite.
Record t : Type := mk { testCode : jsstring; testCases : list TestCase.t }.
End TestSuite.

(** The fields of a catalogue entry that [runCode] reads. *)
Module Problem.
Record t : Type := mk { testCaseFile : jsstring }.
End Problem.

Module Judge0Response.
Record t : Type := mk {
  stdout : optional jsstring;
  stderr : optional jsstring;
  compile_output : optional jsstring;
  time : optional jsstring;
  memory : optional Z
}.
End Judge0Response.

Inductive Status : Type := passed | failed | running.

Record TestResult : Type := mkTestResult {
  testNumber : nat;
  status : Status;
  message : jsstring;
  input : optional jsstring;
  expected : optional jsstring;
  actual : optional jsstring;
  time : optional jsstring;
  memory : optional Z;
  error : optional jsstring
}.

(** The body of the POST request. *)
Record Submission : Type := mkSubmission {
  language_id : Z;
  source_code : jsstring;
  stdin : jsstring
}.

(** What is caught when [axios.post] rejects. *)
Module Thrown.
Record t : Type := mk { message : optional jsstring }.
End Thrown.

(** The outcome of one awaited [axios.post]: the [data] of the response,
    or the value thrown. *)
Inductive Outcome : Type :=
| Resolved (data : Judge0Response.t)
| Rejected (err : Thrown.t).

Definition LANGUAGE_IDS (l : Language) : Z :=
  match l with
  | python => 71
  | javascript => 63
  | cpp => 54
  end%Z.

(** A result object with only [testNumber], [status] and [message]. *)
Definition bare (n : nat) (st : Status) (msg : jsstring) : TestResult :=
  {| testNumber := n; status := st; message := msg;
     input := Undefined; expected := Undefined; actual := Undefined;
     time := Undefined; memory := Undefined; error := Undefined |}.

(** ** The browser side: React state, alerts and the network

    [results] and [isRunning] are the two [useState] cells that [runCode]
    writes.  The other three fields are logs, oldest entry first: the
    alerts shown, the bodies posted to the judging service, and every
    value that a setter gave to [results] (the published snapshots).
    State setters are applied in the order in which they are called. *)

Record World : Type := mkWorld {
  results : array TestResult;
  isRunning : bool;
  alerts : list jsstring;
  posted : list Submission;
  published : list (array TestResult)
}.

(** A computation that runs against the world. *)
Definition Eff (A : Type) : Type := World → A * World.

Definition ret {A} (a : A) : Eff A := λ w, (a, w).

Definition bind {A B} (m : Eff A) (k : A → Eff B) : Eff B :=
  λ w, let (a, w') := m w in k a w'.

Declare Scope eff_scope.
Delimit Scope eff_scope with eff.
Bind Scope eff_scope with Eff.
Notation "'let!' x ':=' m 'in' k" := (bind m (λ x, k))
  (at level 10, x name, m at level 100, k at level 200) : eff_scope.
Notation "m ;; k" := (bind m (λ _, k))
  (at level 100, k at level 200, right associativity) : eff_scope.

(** [alert(msg)] *)
Definition alert (msg : jsstring) : Eff unit := λ w,
  (tt, {| results := results w; isRunning := isRunning w;
          alerts := alerts w ++ [msg]; posted := posted w;
          published := published w |}).

(** [setIsRunning(b)] *)
Definition setIsRunning (b : bool) : Eff unit := λ w,
  (tt, {| results := results w; isRunning := b;
          alerts := alerts w; posted := posted w;
          published := published w |}).

(** The setter of the result state called with an updater function
    [prev => f(prev)]. *)
Definition updateResults (f : array TestResult → array TestResult) : Eff unit := λ w,
  (tt, {| results := f (results w); isRunning := isRunning w;
          alerts := alerts w; posted := posted w;
          published := published w ++ [f (results w)] |}).

(** The setter of the result state called with a value. *)
Definition setResults (v : array TestResult) : Eff unit :=
  updateResults (λ _, v).

(** A dense array literal. *)
Definition dense {A} (l : list A) : array A := Some <$> l.

Section Service.

(** The judging service: the outcome of the [n]-th call of [axios.post]
    (counted from 0 over the life of the page), given the body sent. *)
Variable service : nat → Submission → Outcome.

(** [await axios.post(url, body, config)], with [try]/[catch] turned
    into a case distinction on the outcome. *)
Definition axios_post (body : Submission) : Eff Outcome := λ w,
  (service (length (posted w)) body,
   {| results := results w; isRunning := isRunning w;
      alerts := alerts w; posted := posted w ++ [body];
      published := published w |}).

End Service.

(** ** [src/client/src/App.tsx] *)

Module Client.

(** [parseResult(result, testCase, index)] *)
Definition parseResult (result : Judge0Response.t) (testCase : TestCase.t)
    (index : nat) : TestResult :=
  let testNumber := index + 1 in
  let otherwise :=
    match truthy (Judge0Response.stderr result) with
    | Some stderr =>
        {| testNumber := testNumber; status := failed;
           message := lit "Test Case " ++ toString testNumber
                      ++ lit " Failed - Runtime Error";
           input := Undefined; expected := Undefined; actual := Undefined;
           time := Undefined; memory := Undefined;
           error := Val stderr |}
    | None =>
    match truthy (Judge0Response.compile_output result) with
    | Some compile_output =>
        {| testNumber := testNumber; status := failed;
           message := lit "Test Case " ++ toString testNumber
                      ++ lit " Failed - Compilation Error";
           input := Undefined; expected := Undefined; actual := Undefined;
           time := Undefined; memory := Undefined;
           error := Val compile_output |}
    | None =>
        {| testNumber := testNumber; status := failed;
           message := lit "Test Case " ++ toString testNumber
                      ++ lit " Failed - Wrong Answer";
           input := Val (TestCase.input testCase);
           expected := Val (TestCase.expectedOutput testCase);
           actual := match truthy (Judge0Response.stdout result) with
                     | Some stdout => Val (trim stdout)
                     | None => Val (lit "No output")
                     end;
           time := Undefined; memory := Undefined; error := Undefined |}
    end end in
  match truthy (Judge0Response.stdout result) with
  | Some stdout =>
      if decide (trim stdout = TestCase.expectedOutput testCase) then
        {| testNumber := testNumber; status := passed;
           message := lit "Test Case " ++ toString testNumber ++ lit " Passed";
           input := Val (TestCase.input testCase);
           expected := Val (TestCase.expectedOutput testCase);
           actual := Val (trim stdout);
           time := Judge0Response.time result;
           memory := Judge0Response.memory result;
           error := Undefined |}
      else otherwise
  | None => otherwise
  end.

Section App.

Variable service : nat → Submission → Outcome.

(** The fixtures imported from [./testcases/sumOfTwoNumbers] and
    [./testcases/multiplyNumbers]: one optional suite per language. *)
Variables sumOfTwoNumbersTests multiplyNumbersTests :
  Language → option TestSuite.t.

Definition TEST_CASE_MAP : gmap jsstring (Language → option TestSuite.t) :=
  {[ lit "sumOfTwoNumbers" := sumOfTwoNumbersTests;
     lit "multiplyNumbers" := multiplyNumbersTests ]}.

(** What the closure of [runCode] captured at the last render. *)
Variable problem : Problem.t.
Variable language : Language.
Variable code : jsstring.

(** [TEST_CASE_MAP[problem.testCaseFile]?.[language]] *)
Definition testSuite : option TestSuite.t :=
  TEST_CASE_MAP !! Problem.testCaseFile problem
    ≫= λ suites, suites language.

(** The [for] loop of [runCode], entered at index [i] with the local
    array [newResults].  The guard [i < cases.length] is the lookup
    [cases !! i]; [fuel] bounds the number of iterations. *)
Fixpoint loop (fullCode : jsstring) (cases : list TestCase.t)
    (fuel i : nat) (newResults : list TestResult) : Eff (list TestResult) :=
  match fuel with
  | 0 => ret newResults
  | S fuel =>
      match cases !! i with
      | None => ret newResults
      | Some case_i =>
          (let! outcome :=
             axios_post service
               {| language_id := LANGUAGE_IDS language;
                  source_code := fullCode;
                  stdin := TestCase.input case_i |} in
           let newResults :=
             newResults ++
             [ match outcome with
               | Resolved data => parseResult data case_i i
               | Rejected err =>
                   {| testNumber := i + 1; status := failed;
                      message := lit "Test Case " ++ toString (i + 1)
                                 ++ lit " Failed - API Error";
                      input := Undefined; expected := Undefined;
                      actual := Undefined;
                      time := Undefined; memory := Undefined;
                      error := Thrown.message err |}
               end ] in
           setResults
             (dense (newResults ++
                     imap (λ idx _, bare (i + idx + 2) running (lit "Waiting..."))
                          (drop (i + 1) cases)));;
           loop fullCode cases fuel (i + 1) newResults)%eff
      end
  end.

Definition runCode : Eff unit :=
  match testSuite with
  | None => alert (lit "No tests found for this language.")
  | Some testSuite =>
      (setIsRunning true;;
       let fullCode := code ++ LF ++ TestSuite.testCode testSuite in
       let cases := TestSuite.testCases testSuite in
       setResults
         (dense (imap (λ i _, bare (i + 1) running (lit "Running...")) cases));;
       let! newResults := loop fullCode cases (length cases) 0 [] in
       setIsRunning false)%eff
  end.

End App.

End Client.

(** ** [src/unnamed/part_000] *)

Module Part000.

(** The branch chain of [runCode] that turns the response [result] for
    [testCase] at index [i] into [testResult]. *)
Definition classify (result : Judge0Response.t) (testCase : TestCase.t)
    (i : nat) : TestResult :=
  let else_branches :=
    match truthy (Judge0Response.stderr result) with
    | Some stderr =>
        {| testNumber := i + 1; status := failed;
           message := lit "Test Case " ++ toString (i + 1)
                      ++ lit " Failed - Runtime Error";
           input := Undefined; expected := Undefined; actual := Undefined;
           time := Undefined; memory := Undefined;
           error := Val stderr |}
    | None =>
    match truthy (Judge0Response.compile_output result) with
    | Some compile_output =>
        {| testNumber := i + 1; status := failed;
           message := lit "Test Case " ++ toString (i + 1)
                      ++ lit " Failed - Compilation Error";
           input := Undefined; expected := Undefined; actual := Undefined;
           time := Undefined; memory := Undefined;
           error := Val compile_output |}
    | None =>
        {| testNumber := i + 1; status := failed;
           message := lit "Test Case " ++ toString (i + 1)
                      ++ lit " Failed - Wrong Answer";
           input := Val (TestCase.input testCase);
           expected := Val (TestCase.expectedOutput testCase);
           actual := match truthy (Judge0Response.stdout result) with
                     | Some stdout => Val (trim stdout)
                     | None => Val (lit "No output")
                     end;
           time := Undefined; memory := Undefined; error := Undefined |}
    end end in
  match truthy (Judge0Response.stdout result) with
  | Some stdout =>
      if decide (trim stdout = TestCase.expectedOutput testCase) then
        {| testNumber := i + 1; status := passed;
           message := lit "Test Case " ++ toString (i + 1) ++ lit " Passed";
           input := Val (TestCase.input testCase);
           expected := Val (TestCase.expectedOutput testCase);
           actual := Val (trim stdout);
           time := Judge0Response.time result;
           memory := Judge0Response.memory result;
           error := Undefined |}
      else else_branches
  | None => else_branches
  end.

Section App.

Variable service : nat → Submission → Outcome.

Variables sumOfTwoNumbersTests multiplyNumbersTests :
  Language → option TestSuite.t.

Definition testCaseMap : gmap jsstring (Language → option TestSuite.t) :=
  {[ lit "sumOfTwoNumbers" := sumOfTwoNumbersTests;
     lit "multiplyNumbers" := multiplyNumbersTests ]}.

Variable currentProblem : Problem.t.
Variable language : Language.
Variable code : jsstring.

(** [testCaseMap[currentProblem.testCaseFile]?.[language]] *)
Definition testCases : option TestSuite.t :=
  testCaseMap !! Problem.testCaseFile currentProblem
    ≫= λ suites, suites language.

(** The [for] loop of [runCode], entered at index [i] with the local
    array [results]. *)
Fixpoint loop (fullCode : jsstring) (cases : list TestCase.t)
    (fuel i : nat) (results : list TestResult) : Eff (list TestResult) :=
  match fuel with
  | 0 => ret results
  | S fuel =>
      match cases !! i with
      | None => ret results
      | Some testCase =>
          (let! outcome :=
             axios_post service
               {| language_id := LANGUAGE_IDS language;
                  source_code := fullCode;
                  stdin := TestCase.input testCase |} in
           match outcome with
           | Resolved result =>
               let testResult := classify result testCase i in
               updateResults (array_set i testResult);;
               loop fullCode cases fuel (i + 1) (results ++ [testResult])
           | Rejected error =>
               let errorResult :=
                 {| testNumber := i + 1; status := failed;
                    message := lit "Test Case " ++ toString (i + 1)
                               ++ lit " Failed - API Error";
                    input := Undefined; expected := Undefined;
                    actual := Undefined;
                    time := Undefined; memory := Undefined;
                    error := match truthy (Thrown.message error) with
                             | Some message => Val message
                             | None => Val (lit "Unknown error")
                             end |} in
               updateResults (array_set i errorResult);;
               loop fullCode cases fuel (i + 1) (results ++ [errorResult])
           end)%eff
      end
  end.

Definition runCode : Eff unit :=
  match testCases with
  | None => alert (lit "Test cases not available for this language.")
  | Some testCases =>
      (setIsRunning true;;
       let fullCode := code ++ LF ++ TestSuite.testCode testCases in
       let initialResults :=
         dense (imap (λ index _, bare (index + 1) running (lit "Running..."))
                     (TestSuite.testCases testCases)) in
       setResults initialResults;;
       let! results :=
         loop fullCode (TestSuite.testCases testCases)
              (length (TestSuite.testCases testCases)) 0 [] in
       setIsRunning false)%eff
  end.

End App.

End Part000.

(** ** Vocabulary of the statements *)

(** The three failure results that carry no API error, as object
    literals of the source. *)
Definition runtimeError (n : nat) (stderr : jsstring) : TestResult :=
  {| testNumber := n; status := failed;
     message := lit "Test Case " ++ toString n ++ lit " Failed - Runtime Error";
     input := Undefined; expected := Undefined; actual := Undefined;
     time := Undefined; memory := Undefined; error := Val stderr |}.

Definition wrongAnswer (n : nat) (testCase : TestCase.t) (got : jsstring) : TestResult :=
  {| testNumber := n; status := failed;
     message := lit "Test Case " ++ toString n ++ lit " Failed - Wrong Answer";
     input := Val (TestCase.input testCase);
     expected := Val (TestCase.expectedOutput testCase);
     actual := Val got;
     time := Undefined; memory := Undefined; error := Undefined |}.

Definition passedResult (n : nat) (testCase : TestCase.t) (got : jsstring)
    (result : Judge0Response.t) : TestResult :=
  {| testNumber := n; status := passed;
     message := lit "Test Case " ++ toString n ++ lit " Passed";
     input := Val (TestCase.input testCase);
     expected := Val (TestCase.expectedOutput testCase);
     actual := Val got;
     time := Judge0Response.time result;
     memory := Judge0Response.memory result;
     error := Undefined |}.

(** The result synthesised in the [catch] block. *)
Definition apiError (n : nat) (error : optional jsstring) : TestResult :=
  {| testNumber := n; status := failed;
     message := lit "Test Case " ++ toString n ++ lit " Failed - API Error";
     input := Undefined; expected := Undefined; actual := Undefined;
     time := Undefined; memory := Undefined; error := error |}.

(** A value that an [if] or [&&] of the source treats as false. *)
Definition falsy (v : optional jsstring) : Prop := truthy v = None.

(** The body that [runCode] posts for a test case. *)
Definition request (language : Language) (fullCode : jsstring)
    (testCase : TestCase.t) : Submission :=
  {| language_id := LANGUAGE_IDS language;
     source_code := fullCode;
     stdin := TestCase.input testCase |}.

(** What [App.tsx] stores in slot [i] for an outcome of the call. *)
Definition client_settle (i : nat) (testCase : TestCase.t) (o : Outcome) : TestResult :=
  match o with
  | Resolved data => Client.parseResult data testCase i
  | Rejected err => apiError (i + 1) (Thrown.message err)
  end.

(** What [part_000] stores in slot [i] for an outcome of the call. *)
Definition part000_settle (i : nat) (testCase : TestCase.t) (o : Outcome) : TestResult :=
  match o with
  | Resolved result => Part000.classify result testCase i
  | Rejected error =>
      apiError (i + 1)
        match truthy (Thrown.message error) with
        | Some message => Val message
        | None => Val (lit "Unknown error")
        end
  end.

(** The placeholders of the slots that are not resolved yet. *)
Definition runningSlot (j : nat) : TestResult := bare (j + 1) running (lit "Running...").
Definition waitingSlot (j : nat) : TestResult := bare (j + 1) running (lit "Waiting...").

Section Trace.

Variable service : nat → Submission → Outcome.
Variable language : Language.
Variable fullCode : jsstring.
Variable cases : list TestCase.t.
(** How the variant settles a slot, and what it shows in a pending one. *)
Variable settle : nat → TestCase.t → Outcome → TestResult.
Variable pending : nat → TestResult.
(** The number of calls of [axios.post] made before the run. *)
Variable base : nat.

(** The resolved value of every slot. *)
Definition verdicts : list TestResult :=
  imap (λ i testCase,
          settle i testCase (service (base + i) (request language fullCode testCase)))
       cases.

(** The result array once the first [k] slots are resolved. *)
Definition snapshot (k : nat) : array TestResult :=
  dense (take k verdicts ++ imap (λ idx _, pending (k + idx)) (drop k cases)).

End Trace.

(** The snapshots published between two worlds. *)
Definition during (w w' : World) : list (array TestResult) :=
  drop (length (published w)) (published w').

(** A result array with one slot per test case, numbered from 1. *)
Definition well_numbered (n : nat) (s : array TestResult) : Prop :=
  length s = n ∧ ∀ i, i < n → ∃ r, s !! i = Some (Some r) ∧ testNumber r = i + 1.


(** The array [s] is the state of a run with verdicts [final] once the
    first [k] slots are resolved: every slot is filled and numbered, the
    slots below [k] hold their verdict, the others are still running. *)
Definition progress (final : list TestResult) (k : nat) (s : array TestResult) : Prop :=
  length s = length final ∧ k ≤ length final
  ∧ ∀ i, i < length final →
      ∃ r, s !! i = Some (Some r) ∧ testNumber r = i + 1
           ∧ (i < k → final !! i = Some r ∧ status r ≠ running)
           ∧ (k ≤ i → status r = running).

(** Summary of a run over [cases] that takes the world from [w] to [w']
    and settles the slots as [final]. *)
Definition completes (language : Language) (fullCode : jsstring)
    (cases : list TestCase.t) (final : list TestResult) (w w' : World) : Prop :=
  results w' = dense final
  ∧ isRunning w' = false
  ∧ alerts w' = alerts w
  ∧ posted w' = posted w ++ (request language fullCode <$> cases)
  ∧ published w' = published w ++ during w w'
  ∧ length (during w w') = length cases + 1
  ∧ ∀ k s, during w w' !! k = Some s → progress final k s.

(** ** A sample page, used to run the statements on concrete inputs *)

Module Sample.

Definition suite : TestSuite.t :=
  TestSuite.mk (lit "print(add(*map(int, input().split())))")
    [TestCase.mk (lit "2 3") (lit "5"); TestCase.mk (lit "0 0") (lit "0")].

(** A fixture with a Python suite only. *)
Definition sumOfTwoNumbersTests (l : Language) : option TestSuite.t :=
  match l with python => Some suite | _ => None end.

Definition multiplyNumbersTests (l : Language) : option TestSuite.t := None.

Definition problem : Problem.t := Problem.mk (lit "sumOfTwoNumbers").

Definition code : list N := lit "def add(a, b): return a + b".

Definition response (out : list N) : Judge0Response.t :=
  Judge0Response.mk (Val out) Null Null (Val (lit "0.011")) (Val 3312%Z).

(** The first call answers [5\n]; the second is rejected with an error
    whose message is [Network Error]; later calls answer [1\n]. *)
Definition service (n : nat) (body : Submission) : Outcome :=
  match n with
  | 0 => Resolved (response (lit "5" ++ LF))
  | 1 => Rejected (Thrown.mk (Val (lit "Network Error")))
  | _ => Resolved (response (lit "1" ++ LF))
  end.

(** Every call is rejected with an error whose message is empty. *)
Definition silent (n : nat) (body : Submission) : Outcome :=
  Rejected (Thrown.mk (Val [])).

(** The page before the first run. *)
Definition fresh : World :=
  {| results := []; isRunning := false; alerts := []; posted := [];
     published := [] |}.

End Sample.

(** Between [w] and [w'] every published array, and the final state, has
    [n] numbered slots. *)
Definition keeps_shape (n : nat) (w w' : World) : Prop :=
  published w' = published w ++ during w w'
  ∧ length (during w w') = n + 1
  ∧ Forall (well_numbered n) (during w w')
  ∧ well_numbered n (results w').


(** ** The rest of the component: counters, row guards, handlers *)

#[global] Instance Status_eq_dec : EqDecision Status.
Proof. solve_decision. Defined.

(** [results.filter(r => r.status === 'passed').length] and its sibling
    for ['failed'], on a result array without holes. *)
Definition passedCount (testResults : list TestResult) : nat :=
  length (filter (λ r, status r = passed) testResults).

Definition failedCount (testResults : list TestResult) : nat :=
  length (filter (λ r, status r = failed) testResults).

(** The guards of the blocks of a result row.  Both variants render the
    failed details under [status === 'failed' && input] and the error
    under [error]; [part_000] also renders details for a passed row. *)
Definition showsFailedDetails (res : TestResult) : bool :=
  bool_decide (status res = failed)
  && match truthy (input res) with Some _ => true | None => false end.

Definition showsError (res : TestResult) : bool :=
  match truthy (error res) with Some _ => true | None => false end.

Definition showsPassedDetails (res : TestResult) : bool :=
  bool_decide (status res = passed).

(** The compilation-error result, as the object literal of the source. *)
Definition compilationError (n : nat) (compile_output : jsstring) : TestResult :=
  {| testNumber := n; status := failed;
     message := lit "Test Case " ++ toString n ++ lit " Failed - Compilation Error";
     input := Undefined; expected := Undefined; actual := Undefined;
     time := Undefined; memory := Undefined; error := Val compile_output |}.

(** A string that neither starts nor ends with a character that [trim]
    strips. *)
Definition tight (s : jsstring) : Prop :=
  (∀ c, head s = Some c → is_space c = false)
  ∧ (∀ c, last s = Some c → is_space c = false).

(** A string made of characters that [trim] strips. *)
Definition blank (s : jsstring) : Prop := Forall (λ c, is_space c = true) s.

(** The same response with another stdout. *)
Definition with_stdout (out : jsstring) (result : Judge0Response.t) : Judge0Response.t :=
  Judge0Response.mk (Val out) (Judge0Response.stderr result)
    (Judge0Response.compile_output result) (Judge0Response.time result)
    (Judge0Response.memory result).

(** An entry of [./problems]: the fields that [runCode] reads, and the
    starter code that the handlers read. *)
Module Entry.
Record t : Type := mk { fields : Problem.t; starterCode : Language → jsstring }.
End Entry.

(** The state cells of [App]: [results] and [isRunning] live in [world]. *)
Module Page.
Record t : Type := mk {
problemIdx : nat;
language : Language;
code : jsstring;
world : World
}.
End Page.

(** How an event handler ends: it returns, or it throws after the state
    updates it had already made. *)
Inductive Handled : Type :=
| Returned (p : Page.t)
| Threw (p : Page.t).

(** What the user can do on the page. *)
Inductive Event : Type :=
| SelectProblem (value : nat)
| SelectLanguage (value : Language)
| Edit (val : optional jsstring)
| ClickRun.

Definition setProblemIdx (idx : nat) (p : Page.t) : Page.t :=
  Page.mk idx (Page.language p) (Page.code p) (Page.world p).

Definition setLanguage (lang : Language) (p : Page.t) : Page.t :=
  Page.mk (Page.problemIdx p) lang (Page.code p) (Page.world p).

Definition setCode (code : jsstring) (p : Page.t) : Page.t :=
  Page.mk (Page.problemIdx p) (Page.language p) code (Page.world p).

(** A computation on the result state and the logs, run inside a page. *)
Definition inWorld (m : Eff unit) (p : Page.t) : Page.t :=
  Page.mk (Page.problemIdx p) (Page.language p) (Page.code p) (m (Page.world p)).2.

Section Component.

Variable service : nat → Submission → Outcome.
Variables sumOfTwoNumbersTests multiplyNumbersTests :
Language → option TestSuite.t.
(** The catalogue imported from [./problems]. *)
Variable problems : list Entry.t.

(** [updateProblem(idx)] of [App.tsx], [handleProblemChange(index)] of
  [part_000]: reading [problems[idx].starterCode] throws when [idx] is
  out of range, after the index was set. *)
Definition updateProblem (idx : nat) (p : Page.t) : Handled :=
let p := setProblemIdx idx p in
match problems !! idx with
| None => Threw p
| Some entry =>
    Returned (inWorld (setResults [])
                (setCode (Entry.starterCode entry (Page.language p)) p))
end.

(** [updateLanguage(lang)] of [App.tsx], [handleLanguageChange(newLang)]
  of [part_000], for the [problem] of the last render. *)
Definition updateLanguage (problem : Entry.t) (lang : Language) (p : Page.t) : Page.t :=
inWorld (setResults []) (setCode (Entry.starterCode problem lang) (setLanguage lang p)).

(** The editor's [onChange]: [setCode(val || '')]. *)
Definition editCode (val : optional jsstring) (p : Page.t) : Page.t :=
setCode match truthy val with Some s => s | None => [] end p.

(** One event on the page as rendered from [p].  The render reads
  [problems[problemIdx].testCaseFile], so without that entry there is
  no page to act on; the run button is disabled while [isRunning].
  [run] is the [runCode] of the variant. *)
Definition handle
  (run : Problem.t → Language → jsstring → Eff unit)
  (ev : Event) (p : Page.t) : option Handled :=
match problems !! Page.problemIdx p with
| None => None
| Some problem =>
    Some match ev with
         | SelectProblem idx => updateProblem idx p
         | SelectLanguage lang => Returned (updateLanguage problem lang p)
         | Edit val => Returned (editCode val p)
         | ClickRun =>
             if isRunning (Page.world p) then Returned p
             else Returned
                    (inWorld (run (Entry.fields problem) (Page.language p)
                                  (Page.code p)) p)
         end
end.

Definition client_handle : Event → Page.t → option Handled :=
handle (Client.runCode service sumOfTwoNumbersTests multiplyNumbersTests).

Definition part000_handle : Event → Page.t → option Handled :=
handle (Part000.runCode service sumOfTwoNumbersTests multiplyNumbersTests).

(** The first render: [useState(0)], [useState('python')],
  [useState(problems[0].starterCode.python)], [useState([])],
  [useState(false)]. *)
Definition firstPage : option Page.t :=
match problems !! 0 with
| None => None
| Some entry =>
    Some (Page.mk 0 python (Entry.starterCode entry python)
            {| results := []; isRunning := false; alerts := [];
               posted := []; published := [] |})
end.

(** A sequence of events, each handled to its end (a run included) on
  the page the previous one left; [None] when a handler threw or the
  page did not render. *)
Fixpoint session (run : Problem.t → Language → jsstring → Eff unit)
  (evs : list Event) (p : Page.t) : option Page.t :=
match evs with
| [] => Some p
| ev :: evs =>
    match handle run ev p with
    | Some (Returned p') => session run evs p'
    | _ => None
    end
end.

End Component.

(** What holds of a page between two events: its problem exists, no run
    is in progress, and the result state is empty or holds one resolved
    slot per test case of the suite of the current problem and
    language. *)
Definition page_settled
    (sumOfTwoNumbersTests multiplyNumbersTests : Language → option TestSuite.t)
    (problems : list Entry.t) (p : Page.t) : Prop :=
  ∃ entry, problems !! Page.problemIdx p = Some entry
    ∧ isRunning (Page.world p) = false
    ∧ (results (Page.world p) = []
       ∨ ∃ suite l,
           Client.testSuite sumOfTwoNumbersTests multiplyNumbersTests
             (Entry.fields entry) (Page.language p) = Some suite
           ∧ results (Page.world p) = dense l
           ∧ length l = length (TestSuite.testCases suite)
           ∧ Forall (λ r, status r ≠ running) l).

(** ** A run amid problem and language changes

    While a call of [axios.post] is pending the page still handles
    events.  The run button is disabled, the editor writes [code] only,
    and the problem and language selects stay enabled: their handlers
    call [setResults([])], which is the one write to a state cell of
    the run that another handler makes. *)

(** [n] problem or language changes in a row, as the run sees them. *)
Fixpoint emptied (n : nat) : Eff unit :=
  match n with
  | 0 => ret tt
  | S n => (setResults [];; emptied n)%eff
  end.

Module Amid.

Section App.

Variable service : nat → Submission → Outcome.

(** [changes i]: how many problem or language changes are made while
the call of iteration [i] is pending. *)
Variable changes : nat → nat.

Variables sumOfTwoNumbersTests multiplyNumbersTests :
Language → option TestSuite.t.
Variable problem : Problem.t.
Variable language : Language.
Variable code : jsstring.

(** [await axios.post(...)] in iteration [i]: the request goes out, the
changes made meanwhile are handled, then the outcome arrives. *)
Definition awaited_post (i : nat) (body : Submission) : Eff Outcome :=
(let! outcome := axios_post service body in
emptied (changes i);;
ret outcome)%eff.

(** The loop of [App.tsx]. *)
Fixpoint client_loop (fullCode : jsstring) (cases : list TestCase.t)
(fuel i : nat) (newResults : list TestResult) : Eff (list TestResult) :=
match fuel with
| 0 => ret newResults
| S fuel =>
  match cases !! i with
  | None => ret newResults
  | Some case_i =>
      (let! outcome :=
         awaited_post i
           {| language_id := LANGUAGE_IDS language;
              source_code := fullCode;
              stdin := TestCase.input case_i |} in
       let newResults :=
         newResults ++
         [ match outcome with
           | Resolved data => Client.parseResult data case_i i
           | Rejected err =>
               {| testNumber := i + 1; status := failed;
                  message := lit "Test Case " ++ toString (i + 1)
                             ++ lit " Failed - API Error";
                  input := Undefined; expected := Undefined;
                  actual := Undefined;
                  time := Undefined; memory := Undefined;
                  error := Thrown.message err |}
           end ] in
       setResults
         (dense (newResults ++
                 imap (λ idx _, bare (i + idx + 2) running (lit "Waiting..."))
                      (drop (i + 1) cases)));;
       client_loop fullCode cases fuel (i + 1) newResults)%eff
  end
end.

(** [runCode] of [App.tsx]. *)
Definition client_runCode : Eff unit :=
match Client.testSuite sumOfTwoNumbersTests multiplyNumbersTests
      problem language with
| None => alert (lit "No tests found for this language.")
| Some testSuite =>
  (setIsRunning true;;
   let fullCode := code ++ LF ++ TestSuite.testCode testSuite in
   let cases := TestSuite.testCases testSuite in
   setResults
     (dense (imap (λ i _, bare (i + 1) running (lit "Running...")) cases));;
   let! newResults := client_loop fullCode cases (length cases) 0 [] in
   setIsRunning false)%eff
end.

(** The loop of [part_000]. *)
Fixpoint part000_loop (fullCode : jsstring) (cases : list TestCase.t)
(fuel i : nat) (results : list TestResult) : Eff (list TestResult) :=
match fuel with
| 0 => ret results
| S fuel =>
  match cases !! i with
  | None => ret results
  | Some testCase =>
      (let! outcome :=
         awaited_post i
           {| language_id := LANGUAGE_IDS language;
              source_code := fullCode;
              stdin := TestCase.input testCase |} in
       match outcome with
       | Resolved result =>
           let testResult := Part000.classify result testCase i in
           updateResults (array_set i testResult);;
           part000_loop fullCode cases fuel (i + 1) (results ++ [testResult])
       | Rejected error =>
           let errorResult :=
             {| testNumber := i + 1; status := failed;
                message := lit "Test Case " ++ toString (i + 1)
                           ++ lit " Failed - API Error";
                input := Undefined; expected := Undefined;
                actual := Undefined;
                time := Undefined; memory := Undefined;
                error := match truthy (Thrown.message error) with
                         | Some message => Val message
                         | None => Val (lit "Unknown error")
                         end |} in
           updateResults (array_set i errorResult);;
           part000_loop fullCode cases fuel (i + 1) (results ++ [errorResult])
       end)%eff
  end
end.

(** [runCode] of [part_000]. *)
Definition part000_runCode : Eff unit :=
match Part000.testCases sumOfTwoNumbersTests multiplyNumbersTests
      problem language with
| None => alert (lit "Test cases not available for this language.")
| Some testCases =>
  (setIsRunning true;;
   let fullCode := code ++ LF ++ TestSuite.testCode testCases in
   let initialResults :=
     dense (imap (λ index _, bare (index + 1) running (lit "Running..."))
                 (TestSuite.testCases testCases)) in
   setResults initialResults;;
   let! results :=
     part000_loop fullCode (TestSuite.testCases testCases)
                  (length (TestSuite.testCases testCases)) 0 [] in
   setIsRunning false)%eff
end.

End App.

End Amid.

(** No problem or language change is made while one of the [n] calls of
    a run is pending. *)
Definition quiet (n : nat) (changes : nat → nat) : Prop :=
  ∀ i, i < n → changes i = 0.

(** The arrays that a run publishes, with the empty arrays published by
    the changes made while the call of iteration [i], [i + 1], ... is
    pending put before them. *)
Fixpoint weave (changes : nat → nat) (i : nat)
    (arrays : list (list (option TestResult))) : list (list (option TestResult)) :=
  match arrays with
  | [] => []
  | s :: rest => replicate (changes i) [] ++ s :: weave changes (S i) rest
  end.

(** The published log of a run whose own arrays are [own]: the initial
    array, then for every iteration the empties of the changes and the
    array of the iteration. *)
Definition woven (changes : nat → nat)
    (own : list (list (option TestResult))) : list (list (option TestResult)) :=
  match own with
  | [] => []
  | initial :: rest => initial :: weave changes 0 rest
  end.

(** The arrays [own] of a run and the state [final] it ends with all
    have [n] numbered slots; [own] has one array more than test cases. *)
Definition shaped (n : nat) (own : list (list (option TestResult)))
    (final : list (option TestResult)) : Prop :=
  length own = n + 1
  ∧ Forall (well_numbered n) own
  ∧ well_numbered n final.


(** The counters on the arrays [own] of a run and on the state [final]:
    the [k]-th array counts [k] passed or failed slots, the final state
    [n]. *)
Definition counted (n : nat) (own : list (list (option TestResult)))
    (final : list (option TestResult)) : Prop :=
  (∀ k s, own !! k = Some s →
          ∃ l, s = dense l ∧ passedCount l + failedCount l = k)
  ∧ ∃ l, final = dense l ∧ length l = n
         ∧ passedCount l + failedCount l = n.


(** Further sample inputs. *)
Module Scenario.


(** One problem or language change, made while the call of iteration
  [k] is pending. *)
Definition change_during (k : nat) (i : nat) : nat :=
if decide (i = k) then 1 else 0.

(** No change at all. *)
Definition none (i : nat) : nat := 0.

End Scenario.

(** ** The JavaScript primitives on concrete values *)

Example trim_strips_both_ends :
  trim (lit " 42" ++ LF) = lit "42" ∧ trim (lit "42 ") = lit "42"
  ∧ trim ([9; 160; 8232; 65279]%N ++ lit "4 2" ++ [13; 10; 12288]%N) = lit "4 2"
  ∧ trim (lit "  ") = [].
Proof. repeat split. Qed.

Example toString_decimal :
  toString 1 = lit "1" ∧ toString 12 = lit "12" ∧ toString 0 = lit "0".
Proof. repeat split. Qed.

Example array_set_in_range_and_beyond :
  array_set 1 7 [Some 0; Some 1; Some 2] = [Some 0; Some 7; Some 2]
  ∧ array_set 3 7 [Some 0] = [Some 0; None; None; Some 7].
Proof. repeat split. Qed.

(** ** The classifiers *)

Lemma truthy_Some v s : truthy v = Some s ↔ v = Val s ∧ s ≠ [].
Proof.
  destruct v as [| |[|c t]]; simpl; split;
    try (intros [? ?]); try intros ?; simplify_eq; try done.
Qed.

Lemma truthy_Val s : s ≠ [] → truthy (Val s) = Some s.
Proof. by destruct s. Qed.

(** Case analysis on the tests that a classifier makes, in their order. *)
Ltac classifier_cases :=
  repeat match goal with
         | |- context [truthy ?v] =>
             let E := fresh "E" in destruct (truthy v) eqn:E
         | |- context [decide ?P] => destruct (decide P)
         end.

(** The inline chain of [part_000] is the function [parseResult]. *)
Lemma classify_parseResult result testCase index :
  Part000.classify result testCase index = Client.parseResult result testCase index.
Proof.
  unfold Part000.classify, Client.parseResult. classifier_cases; reflexivity.
Qed.

Ltac classify_as_parseResult :=
  repeat match goal with
         | |- context [Part000.classify ?r ?t ?i] =>
             change (Part000.classify r t i) with (Client.parseResult r t i)
         end.

Lemma parseResult_spec result testCase index :
  Client.parseResult result testCase index =
  match truthy (Judge0Response.stdout result),
        truthy (Judge0Response.stderr result),
        truthy (Judge0Response.compile_output result) with
  | Some out, e, c =>
      if decide (trim out = TestCase.expectedOutput testCase)
      then passedResult (index + 1) testCase (trim out) result
      else match e, c with
           | Some e, _ => runtimeError (index + 1) e
           | None, Some c =>
               {| testNumber := index + 1; status := failed;
                  message := lit "Test Case " ++ toString (index + 1)
                             ++ lit " Failed - Compilation Error";
                  input := Undefined; expected := Undefined; actual := Undefined;
                  time := Undefined; memory := Undefined; error := Val c |}
           | None, None => wrongAnswer (index + 1) testCase (trim out)
           end
  | None, Some e, _ => runtimeError (index + 1) e
  | None, None, Some c =>
      {| testNumber := index + 1; status := failed;
         message := lit "Test Case " ++ toString (index + 1)
                    ++ lit " Failed - Compilation Error";
         input := Undefined; expected := Undefined; actual := Undefined;
         time := Undefined; memory := Undefined; error := Val c |}
  | None, None, None => wrongAnswer (index + 1) testCase (lit "No output")
  end.
Proof. unfold Client.parseResult. classifier_cases; reflexivity. Qed.

Lemma parseResult_testNumber result testCase index :
  testNumber (Client.parseResult result testCase index) = index + 1.
Proof. rewrite parseResult_spec. classifier_cases; reflexivity. Qed.

Lemma parseResult_not_running result testCase index :
  status (Client.parseResult result testCase index) ≠ running.
Proof. rewrite parseResult_spec. classifier_cases; discriminate. Qed.

Lemma parseResult_passed_iff result testCase index :
  status (Client.parseResult result testCase index) = passed
  ↔ ∃ out, Judge0Response.stdout result = Val out ∧ out ≠ []
           ∧ trim out = TestCase.expectedOutput testCase.
Proof.
  rewrite parseResult_spec.
  destruct (truthy (Judge0Response.stdout result)) as [out|] eqn:E.
  - apply truthy_Some in E as [E Hne].
    destruct (decide _) as [Heq|Hneq]; simpl.
    + split; [intros _; by exists out|done].
    + split; [by classifier_cases|].
      intros (out' & E' & _ & Heq). congruence.
  - split; [by classifier_cases|].
    intros (out & E' & Hne & _).
    assert (truthy (Judge0Response.stdout result) = Some out) as E''
      by by apply truthy_Some.
    congruence.
Qed.

Lemma parseResult_passed result testCase index out :
  Judge0Response.stdout result = Val out → out ≠ [] →
  trim out = TestCase.expectedOutput testCase →
  Client.parseResult result testCase index
    = passedResult (index + 1) testCase (trim out) result.
Proof.
  intros E Hne Heq. rewrite parseResult_spec, E, (truthy_Val _ Hne).
  by destruct (decide _).
Qed.

Lemma parseResult_wrong_answer result testCase index :
  falsy (Judge0Response.stderr result) →
  falsy (Judge0Response.compile_output result) →
  status (Client.parseResult result testCase index) ≠ passed →
  Client.parseResult result testCase index
    = wrongAnswer (index + 1) testCase
        (match truthy (Judge0Response.stdout result) with
         | Some out => trim out
         | None => lit "No output"
         end).
Proof.
  unfold falsy. intros He Hc. rewrite parseResult_spec, He, Hc.
  destruct (truthy (Judge0Response.stdout result)); [|done].
  by destruct (decide _).
Qed.

(** C1. Precedence of the runtime error over the wrong answer: when the
    trimmed stdout of a response (if there is one) differs from the
    expected output and stderr is a non-empty string, both classifiers
    return the runtime-error result (message
    [Test Case n Failed - Runtime Error], [error] the stderr text, no
    [input], [expected] or [actual]), whatever [compile_output] holds. *)
Theorem runtime_error_precedes_wrong_answer
    (result : Judge0Response.t) (testCase : TestCase.t) (index : nat)
    (err : jsstring) :
  (∀ out, Judge0Response.stdout result = Val out →
          trim out ≠ TestCase.expectedOutput testCase) →
  Judge0Response.stderr result = Val err →
  err ≠ [] →
  (Client.parseResult result testCase index = runtimeError (index + 1) err
   ∧ Part000.classify result testCase index = runtimeError (index + 1) err)
  ∧ ∀ got,
      Client.parseResult result testCase index ≠ wrongAnswer (index + 1) testCase got
      ∧ Part000.classify result testCase index ≠ wrongAnswer (index + 1) testCase got.
Proof.
  intros Hout Herr Hne.
  assert (Client.parseResult result testCase index = runtimeError (index + 1) err)
    as Hr.
  { rewrite parseResult_spec, Herr, (truthy_Val _ Hne).
    destruct (truthy (Judge0Response.stdout result)) as [out|] eqn:E; [|done].
    apply truthy_Some in E as [E _].
    destruct (decide _) as [Heq|_]; [by destruct (Hout _ E)|done]. }
  classify_as_parseResult. rewrite Hr. split; [done|].
  intros got. split; intros H; apply (f_equal error) in H; discriminate H.
Qed.

Lemma runtime_error_precedes_wrong_answer_witness :
  let result :=
    Judge0Response.mk (Val (lit "X")) (Val (lit "boom")) (Val (lit "warning"))
                      Undefined Undefined in
  let testCase := TestCase.mk (lit "1 2") (lit "Y") in
  Client.parseResult result testCase 0 = runtimeError 1 (lit "boom")
  ∧ Part000.classify result testCase 0 = runtimeError 1 (lit "boom").
Proof.
  intros result testCase.
  apply (runtime_error_precedes_wrong_answer result testCase 0 (lit "boom")).
  - intros out [= <-]. vm_compute. discriminate.
  - reflexivity.
  - vm_compute. discriminate.
Defined.


(** C2. A classifier answers [passed] exactly when stdout is a non-empty
    string whose trimmed value is the expected output; the passed result
    carries the trimmed stdout, the expected output, the input and the
    time and memory of the response.  Stdout [" 42\n"] passes against
    ["42"]; stdout ["42 "] against ["4 2"] is a wrong answer with actual
    ["42"] when stderr and compile_output are falsy. *)
Theorem passed_iff_trimmed_stdout_matches :
  (∀ result testCase index,
     let matches := ∃ out, Judge0Response.stdout result = Val out ∧ out ≠ []
                           ∧ trim out = TestCase.expectedOutput testCase in
     (status (Client.parseResult result testCase index) = passed ↔ matches)
     ∧ (status (Part000.classify result testCase index) = passed ↔ matches))
  ∧ (∀ result testCase index out,
       Judge0Response.stdout result = Val out → out ≠ [] →
       trim out = TestCase.expectedOutput testCase →
       Client.parseResult result testCase index
         = passedResult (index + 1) testCase (trim out) result
       ∧ Part000.classify result testCase index
         = passedResult (index + 1) testCase (trim out) result)
  ∧ (∀ result input index,
       Judge0Response.stdout result = Val (lit " 42" ++ LF) →
       let testCase := TestCase.mk input (lit "42") in
       Client.parseResult result testCase index
         = passedResult (index + 1) testCase (lit "42") result
       ∧ Part000.classify result testCase index
         = passedResult (index + 1) testCase (lit "42") result)
  ∧ (∀ result input index,
       Judge0Response.stdout result = Val (lit "42 ") →
       falsy (Judge0Response.stderr result) →
       falsy (Judge0Response.compile_output result) →
       let testCase := TestCase.mk input (lit "4 2") in
       Client.parseResult result testCase index
         = wrongAnswer (index + 1) testCase (lit "42")
       ∧ Part000.classify result testCase index
         = wrongAnswer (index + 1) testCase (lit "42")).
Proof.
  split; [|split; [|split]].
  - intros result testCase index matches. classify_as_parseResult.
    split; apply parseResult_passed_iff.
  - intros result testCase index out E Hne Heq. classify_as_parseResult.
    split; by apply parseResult_passed.
  - intros result input index E testCase. classify_as_parseResult.
    split; by apply (parseResult_passed result testCase index _ E).
  - intros result input index E He Hc testCase. classify_as_parseResult.
    assert (status (Client.parseResult result testCase index) ≠ passed) as Hs.
    { rewrite parseResult_passed_iff. intros (out & E' & _ & Heq).
      rewrite E in E'. by injection E' as <-. }
    rewrite (parseResult_wrong_answer _ _ _ He Hc Hs), E. done.
Qed.

Lemma passed_iff_trimmed_stdout_matches_witness :
  let result :=
    Judge0Response.mk (Val (lit " 42" ++ LF)) Undefined Undefined
                      (Val (lit "0.012")) (Val 3204%Z) in
  let wrong :=
    Judge0Response.mk (Val (lit "42 ")) Null (Val []) Undefined Undefined in
  status (Client.parseResult result (TestCase.mk (lit "6 7") (lit "42")) 0) = passed
  ∧ Part000.classify result (TestCase.mk (lit "6 7") (lit "42")) 0
    = passedResult 1 (TestCase.mk (lit "6 7") (lit "42")) (lit "42") result
  ∧ Client.parseResult wrong (TestCase.mk (lit "6 7") (lit "4 2")) 1
    = wrongAnswer 2 (TestCase.mk (lit "6 7") (lit "4 2")) (lit "42").
Proof.
  intros result wrong.
  destruct passed_iff_trimmed_stdout_matches as (Hiff & Hrec & Hex1 & Hex2).
  split; [|split].
  - apply (Hiff result (TestCase.mk (lit "6 7") (lit "42")) 0).
    exists (lit " 42" ++ LF). split; [reflexivity|]. split; [discriminate|].
    vm_compute. reflexivity.
  - apply (Hex1 result (lit "6 7") 0). reflexivity.
  - apply (Hex2 wrong (lit "6 7") 1); reflexivity.
Defined.

(** C8. The two classifiers agree: [parseResult] of [App.tsx] and the
    inline branch chain of [part_000] return the same result object, field
    by field, for every response, test case and index. *)
Theorem classifiers_agree
    (result : Judge0Response.t) (testCase : TestCase.t) (index : nat) :
  let a := Client.parseResult result testCase index in
  let b := Part000.classify result testCase index in
  a = b
  ∧ testNumber a = testNumber b ∧ status a = status b ∧ message a = message b
  ∧ input a = input b ∧ expected a = expected b ∧ actual a = actual b
  ∧ time a = time b ∧ memory a = memory b ∧ error a = error b.
Proof.
  intros a b. assert (a = b) as ->; [|by repeat split].
  unfold a, b, Client.parseResult, Part000.classify.
  classifier_cases; reflexivity.
Qed.

(** C9. An empty-string stdout never passes, and with falsy stderr and
    compile_output it is a wrong answer whose [actual] is the literal
    [No output], also when the expected output is itself empty. *)
Theorem empty_stdout_is_no_output
    (result : Judge0Response.t) (testCase : TestCase.t) (index : nat) :
  Judge0Response.stdout result = Val [] →
  (status (Client.parseResult result testCase index) ≠ passed
   ∧ status (Part000.classify result testCase index) ≠ passed)
  ∧ (falsy (Judge0Response.stderr result) →
     falsy (Judge0Response.compile_output result) →
     Client.parseResult result testCase index
       = wrongAnswer (index + 1) testCase (lit "No output")
     ∧ Part000.classify result testCase index
       = wrongAnswer (index + 1) testCase (lit "No output")).
Proof.
  intros E. classify_as_parseResult.
  assert (status (Client.parseResult result testCase index) ≠ passed) as Hs.
  { rewrite parseResult_passed_iff. intros (out & E' & Hne & _). congruence. }
  split; [done|]. intros He Hc.
  rewrite (parseResult_wrong_answer _ _ _ He Hc Hs), E. done.
Qed.

Lemma empty_stdout_is_no_output_witness :
  let result := Judge0Response.mk (Val []) (Val []) Null Undefined Undefined in
  let testCase := TestCase.mk (lit "0") [] in
  status (Client.parseResult result testCase 2) ≠ passed
  ∧ Part000.classify result testCase 2 = wrongAnswer 3 testCase (lit "No output").
Proof.
  intros result testCase.
  destruct (empty_stdout_is_no_output result testCase 2) as [[Hs _] Hw].
  - reflexivity.
  - split; [exact Hs|]. apply Hw; reflexivity.
Defined.

(** C10. In a result with status [passed] that a classifier produced,
    [actual] and [expected] are equal and both are the expected output of
    the test case. *)
Theorem passed_actual_is_expected
    (result : Judge0Response.t) (testCase : TestCase.t) (index : nat)
    (r : TestResult) :
  r = Client.parseResult result testCase index
  ∨ r = Part000.classify result testCase index →
  status r = passed →
  actual r = expected r
  ∧ expected r = Val (TestCase.expectedOutput testCase).
Proof.
  classify_as_parseResult. intros Hr Hs.
  assert (r = Client.parseResult result testCase index) as -> by by destruct Hr.
  apply parseResult_passed_iff in Hs as (out & E & Hne & Heq).
  rewrite (parseResult_passed _ _ _ _ E Hne Heq). simpl. by rewrite Heq.
Qed.

Lemma passed_actual_is_expected_witness :
  let result :=
    Judge0Response.mk (Val (LF ++ lit "5" ++ LF)) (Val (lit "note")) Undefined
                      (Val (lit "0.01")) (Val 9000%Z) in
  let r := Part000.classify result (TestCase.mk (lit "2 3") (lit "5")) 0 in
  actual r = expected r ∧ expected r = Val (lit "5").
Proof.
  intros result r.
  apply (passed_actual_is_expected result (TestCase.mk (lit "2 3") (lit "5")) 0 r).
  - right. reflexivity.
  - vm_compute. reflexivity.
Defined.

(** ** Runs *)

Section TraceFacts.

Variable service : nat → Submission → Outcome.
Variable language : Language.
Variable fullCode : jsstring.
Variable cases : list TestCase.t.
Variable settle : nat → TestCase.t → Outcome → TestResult.
Variable pending : nat → TestResult.
Variable base : nat.

Local Abbreviation vs := (verdicts service language fullCode cases settle base).
Local Abbreviation snap := (snapshot service language fullCode cases settle pending base).

Lemma length_verdicts : length vs = length cases.
Proof. apply length_imap. Qed.

Lemma verdicts_lookup i testCase :
  cases !! i = Some testCase →
  vs !! i
  = Some (settle i testCase (service (base + i) (request language fullCode testCase))).
Proof. intros E. unfold verdicts. by rewrite list_lookup_imap, E. Qed.

Lemma length_snapshot k : k ≤ length cases → length (snap k) = length cases.
Proof.
  intros Hk. unfold snapshot, dense.
  rewrite length_fmap, length_app, length_imap, length_drop.
  rewrite length_take_le by (rewrite length_verdicts; lia). lia.
Qed.

Lemma snapshot_lookup_lt k i testCase :
  i < k → cases !! i = Some testCase →
  snap k !! i
  = Some (Some (settle i testCase
                  (service (base + i) (request language fullCode testCase)))).
Proof.
  intros Hik E. pose proof (lookup_lt_Some _ _ _ E) as Hi.
  unfold snapshot, dense. rewrite list_lookup_fmap.
  rewrite lookup_app_l by (rewrite length_take, length_verdicts; lia).
  rewrite lookup_take_lt by done. by rewrite (verdicts_lookup _ _ E).
Qed.

Lemma snapshot_lookup_ge k i :
  k ≤ i → i < length cases → snap k !! i = Some (Some (pending i)).
Proof.
  intros Hki Hi. unfold snapshot, dense. rewrite list_lookup_fmap.
  rewrite lookup_app_r by (rewrite length_take, length_verdicts; lia).
  rewrite length_take_le by (rewrite length_verdicts; lia).
  rewrite list_lookup_imap, lookup_drop.
  destruct (lookup_lt_is_Some_2 cases (k + (i - k))) as [tc ->]; [lia|].
  simpl. do 3 f_equal. lia.
Qed.

Lemma snapshot_full : snap (length cases) = dense vs.
Proof.
  unfold snapshot.
  rewrite take_ge by (by rewrite length_verdicts).
  rewrite drop_ge by done. simpl. by rewrite app_nil_r.
Qed.

Lemma snapshot_S k testCase :
  cases !! k = Some testCase →
  snap (S k)
  = dense ((take k vs
            ++ [settle k testCase
                  (service (base + k) (request language fullCode testCase))])
           ++ imap (λ idx _, pending (k + idx + 1)) (drop (k + 1) cases)).
Proof.
  intros E. unfold snapshot.
  rewrite (take_S_r _ _ _ (verdicts_lookup _ _ E)).
  rewrite Nat.add_1_r. do 2 f_equal.
  apply imap_ext. intros j ? _. simpl. f_equal. lia.
Qed.

(** Writing slot [k] of the array in which [k] slots are resolved. *)
Lemma array_set_snapshot k testCase :
  cases !! k = Some testCase →
  array_set k
    (settle k testCase (service (base + k) (request language fullCode testCase)))
    (snap k)
  = snap (S k).
Proof.
  intros E. pose proof (lookup_lt_Some _ _ _ E) as Hk.
  unfold array_set. rewrite length_snapshot by lia.
  destruct (decide (k < length cases)); [|lia].
  unfold snapshot, dense.
  rewrite (take_S_r _ _ _ (verdicts_lookup _ _ E)).
  rewrite (drop_S _ _ _ E), imap_cons.
  rewrite <- list_fmap_insert. f_equal.
  assert (length (take k vs) = k) as Hlen
    by (rewrite length_take_le; [done|rewrite length_verdicts; lia]).
  rewrite insert_app_r_alt by lia.
  rewrite Hlen, Nat.sub_diag. simpl. rewrite <- app_assoc. simpl.
  do 2 f_equal. apply imap_ext. intros j ? _. simpl. f_equal. lia.
Qed.

End TraceFacts.

Section ClientRun.

Variable service : nat → Submission → Outcome.
Variable language : Language.
Variable fullCode : jsstring.
Variable cases : list TestCase.t.

(** One iteration of the loop of [App.tsx]. *)
Lemma client_loop_step fuel i newResults w case_i r s :
  cases !! i = Some case_i →
  r = client_settle i case_i
        (service (length (posted w)) (request language fullCode case_i)) →
  s = dense ((newResults ++ [r])
             ++ imap (λ idx _, bare (i + idx + 2) running (lit "Waiting..."))
                     (drop (i + 1) cases)) →
  Client.loop service language fullCode cases (S fuel) i newResults w
  = Client.loop service language fullCode cases fuel (i + 1) (newResults ++ [r])
      {| results := s;
         isRunning := isRunning w;
         alerts := alerts w;
         posted := posted w ++ [request language fullCode case_i];
         published := published w ++ [s] |}.
Proof.
  intros E -> ->. simpl. rewrite E.
  unfold bind, axios_post, setResults, updateResults, request. simpl.
  by destruct (service _ _).
Qed.

Variable base : nat.

Local Abbreviation vs :=
  (verdicts service language fullCode cases client_settle base).
Local Abbreviation snap :=
  (snapshot service language fullCode cases client_settle waitingSlot base).

(** The loop of [App.tsx] entered at index [i] with the first [i]
    verdicts in [newResults]: it posts the remaining test cases in
    order and publishes one snapshot per iteration. *)
Lemma client_loop_run fuel i w :
  i + fuel = length cases →
  length (posted w) = base + i →
  Client.loop service language fullCode cases fuel i (take i vs) w
  = (vs,
     {| results := match fuel with 0 => results w | S _ => dense vs end;
        isRunning := isRunning w;
        alerts := alerts w;
        posted := posted w ++ (request language fullCode <$> drop i cases);
        published := published w ++ (snap <$> seq (S i) fuel) |}).
Proof.
  revert i w. induction fuel as [|fuel IH]; intros i w Hfuel Hposted.
  - simpl. unfold ret.
    rewrite take_ge by (rewrite length_verdicts; lia).
    rewrite drop_ge by lia. simpl. rewrite !app_nil_r. by destruct w.
  - destruct (lookup_lt_is_Some_2 cases i) as [case_i E]; [lia|].
    pose proof (verdicts_lookup service language fullCode cases
                  client_settle base i case_i E) as Hv.
    rewrite (client_loop_step fuel i (take i vs) w case_i _ (snap (S i)) E eq_refl).
    2:{ rewrite (snapshot_S _ _ _ _ _ _ _ _ _ E), Hposted. do 2 f_equal.
        apply imap_ext. intros j ? _. unfold waitingSlot. f_equal. lia. }
    rewrite Hposted, <- (take_S_r _ _ _ Hv).
    rewrite Nat.add_1_r, IH; [|lia|simpl; rewrite length_app; simpl; lia].
    simpl. f_equal. f_equal.
    + destruct fuel; [|done].
      assert (S i = length cases) as -> by lia. apply snapshot_full.
    + rewrite <- app_assoc. simpl. by rewrite (drop_S _ _ _ E).
    + rewrite <- app_assoc. done.
Qed.

End ClientRun.

Section Part000Run.

Variable service : nat → Submission → Outcome.
Variable language : Language.
Variable fullCode : jsstring.
Variable cases : list TestCase.t.

(** One iteration of the loop of [part_000]. *)
Lemma part000_loop_step fuel i results0 w testCase r :
  cases !! i = Some testCase →
  r = part000_settle i testCase
        (service (length (posted w)) (request language fullCode testCase)) →
  Part000.loop service language fullCode cases (S fuel) i results0 w
  = Part000.loop service language fullCode cases fuel (i + 1) (results0 ++ [r])
      {| results := array_set i r (results w);
         isRunning := isRunning w;
         alerts := alerts w;
         posted := posted w ++ [request language fullCode testCase];
         published := published w ++ [array_set i r (results w)] |}.
Proof.
  intros E ->. simpl. rewrite E.
  unfold bind, axios_post, updateResults, request. simpl.
  by destruct (service _ _).
Qed.

Variable base : nat.

Local Abbreviation vs :=
  (verdicts service language fullCode cases part000_settle base).
Local Abbreviation snap :=
  (snapshot service language fullCode cases part000_settle runningSlot base).

(** The loop of [part_000] entered at index [i], with the first [i]
    slots of the state resolved. *)
Lemma part000_loop_run fuel i w :
  i + fuel = length cases →
  length (posted w) = base + i →
  results w = snap i →
  Part000.loop service language fullCode cases fuel i (take i vs) w
  = (vs,
     {| results := snap (i + fuel);
        isRunning := isRunning w;
        alerts := alerts w;
        posted := posted w ++ (request language fullCode <$> drop i cases);
        published := published w ++ (snap <$> seq (S i) fuel) |}).
Proof.
  revert i w. induction fuel as [|fuel IH]; intros i w Hfuel Hposted Hres.
  - simpl. unfold ret.
    rewrite take_ge by (rewrite length_verdicts; lia).
    rewrite drop_ge by lia. simpl. rewrite !app_nil_r, Nat.add_0_r, <- Hres.
    by destruct w.
  - destruct (lookup_lt_is_Some_2 cases i) as [testCase E]; [lia|].
    pose proof (verdicts_lookup service language fullCode cases
                  part000_settle base i testCase E) as Hv.
    rewrite (part000_loop_step fuel i (take i vs) w testCase _ E eq_refl).
    rewrite Hposted, Hres, array_set_snapshot by done.
    rewrite <- (take_S_r _ _ _ Hv).
    rewrite Nat.add_1_r, IH; [|lia|simpl; rewrite length_app; simpl; lia|done].
    simpl. f_equal. f_equal.
    + f_equal. lia.
    + rewrite <- app_assoc. simpl. by rewrite (drop_S _ _ _ E).
    + rewrite <- app_assoc. done.
Qed.

End Part000Run.

(** *** Whole runs *)

Lemma client_settle_numbered i testCase o :
  testNumber (client_settle i testCase o) = i + 1
  ∧ status (client_settle i testCase o) ≠ running.
Proof.
  destruct o; simpl; [|done].
  split; [apply parseResult_testNumber|apply parseResult_not_running].
Qed.

Lemma part000_settle_numbered i testCase o :
  testNumber (part000_settle i testCase o) = i + 1
  ∧ status (part000_settle i testCase o) ≠ running.
Proof.
  destruct o; simpl; [|done]. classify_as_parseResult.
  split; [apply parseResult_testNumber|apply parseResult_not_running].
Qed.

Section Progress.

Variable service : nat → Submission → Outcome.
Variable language : Language.
Variable fullCode : jsstring.
Variable cases : list TestCase.t.
Variable settle : nat → TestCase.t → Outcome → TestResult.
Variable pending : nat → TestResult.
Variable base : nat.

Hypothesis settle_numbered : ∀ i testCase o,
  testNumber (settle i testCase o) = i + 1
  ∧ status (settle i testCase o) ≠ running.
Hypothesis pending_numbered : ∀ j,
  testNumber (pending j) = j + 1 ∧ status (pending j) = running.

Local Abbreviation vs := (verdicts service language fullCode cases settle base).
Local Abbreviation snap :=
  (snapshot service language fullCode cases settle pending base).

Lemma snapshot_progress k : k ≤ length cases → progress vs k (snap k).
Proof.
  intros Hk. unfold progress. rewrite length_verdicts.
  split; [by apply length_snapshot|]. split; [done|].
  intros i Hi. destruct (lookup_lt_is_Some_2 cases i) as [tc E]; [done|].
  destruct (decide (i < k)).
  - eexists. split; [by apply snapshot_lookup_lt|].
    split; [apply settle_numbered|].
    split; [intros _|lia].
    split; [by apply verdicts_lookup|apply settle_numbered].
  - eexists. split; [apply snapshot_lookup_ge; lia|].
    split; [apply pending_numbered|].
    split; [lia|intros _; apply pending_numbered].
Qed.

End Progress.

Lemma runningSlot_numbered j :
  testNumber (runningSlot j) = j + 1 ∧ status (runningSlot j) = running.
Proof. done. Qed.

Lemma waitingSlot_numbered j :
  testNumber (waitingSlot j) = j + 1 ∧ status (waitingSlot j) = running.
Proof. done. Qed.

Lemma during_app w w' l : published w' = published w ++ l → during w w' = l.
Proof. intros E. unfold during. rewrite E. apply drop_app_length. Qed.

(** A run of [App.tsx] with a test suite. *)
Lemma client_run service sumOfTwoNumbersTests multiplyNumbersTests
    problem language code w suite :
  Client.testSuite sumOfTwoNumbersTests multiplyNumbersTests problem language
    = Some suite →
  let cases := TestSuite.testCases suite in
  let fullCode := code ++ LF ++ TestSuite.testCode suite in
  completes language fullCode cases
    (verdicts service language fullCode cases client_settle (length (posted w)))
    w
    (Client.runCode service sumOfTwoNumbersTests multiplyNumbersTests
       problem language code w).2.
Proof.
  intros Hsuite cases fullCode.
  set (vs := verdicts _ _ _ _ _ _).
  set (snap := snapshot service language fullCode cases client_settle
                 waitingSlot (length (posted w))).
  set (initial := snapshot service language fullCode cases client_settle
                    runningSlot (length (posted w)) 0).
  assert (Client.runCode service sumOfTwoNumbersTests multiplyNumbersTests
            problem language code w
          = (tt, {| results := dense vs; isRunning := false; alerts := alerts w;
                    posted := posted w ++ (request language fullCode <$> cases);
                    published := published w
                                 ++ initial :: (snap <$> seq 1 (length cases)) |}))
    as ->.
  { unfold Client.runCode. rewrite Hsuite.
    unfold bind at 1, setIsRunning at 1.
    unfold bind at 1, setResults at 1, updateResults at 1. cbv zeta.
    cbn [results isRunning alerts posted published].
    change (TestSuite.testCases suite) with cases.
    change (code ++ LF ++ TestSuite.testCode suite) with fullCode.
    change (dense (imap _ cases)) with initial.
    unfold bind.
    change (@nil TestResult) with (take 0 vs).
    unfold vs. rewrite client_loop_run; [|simpl; lia|simpl; lia].
    unfold setIsRunning. simpl. fold vs. f_equal. f_equal.
    - destruct (length cases) eqn:El; [|done].
      apply nil_length_inv in El. unfold initial, vs, snapshot, verdicts.
      clearbody cases. by subst cases.
    - by rewrite <- app_assoc. }
  simpl. unfold completes. cbn [results isRunning alerts posted published].
  rewrite (during_app w _ (initial :: (snap <$> seq 1 (length cases)))) by done.
  split; [done|]. split; [done|]. split; [done|]. split; [done|].
  split; [done|]. split; [simpl; rewrite length_fmap, length_seq; lia|].
  intros [|k] s Hs; simpl in Hs.
  - injection Hs as <-.
    apply (snapshot_progress service language fullCode cases client_settle
             runningSlot (length (posted w)) client_settle_numbered
             runningSlot_numbered 0). lia.
  - rewrite list_lookup_fmap in Hs.
    destruct (seq 1 (length cases) !! k) as [k'|] eqn:Ek; [|done].
    apply lookup_seq in Ek as [-> Hk]. injection Hs as <-.
    apply (snapshot_progress service language fullCode cases client_settle
             waitingSlot (length (posted w)) client_settle_numbered
             waitingSlot_numbered (1 + k)). lia.
Qed.

(** A run of [part_000] with a test suite. *)
Lemma part000_run service sumOfTwoNumbersTests multiplyNumbersTests
    currentProblem language code w suite :
  Part000.testCases sumOfTwoNumbersTests multiplyNumbersTests currentProblem
    language = Some suite →
  let cases := TestSuite.testCases suite in
  let fullCode := code ++ LF ++ TestSuite.testCode suite in
  completes language fullCode cases
    (verdicts service language fullCode cases part000_settle (length (posted w)))
    w
    (Part000.runCode service sumOfTwoNumbersTests multiplyNumbersTests
       currentProblem language code w).2.
Proof.
  intros Hsuite cases fullCode.
  set (vs := verdicts _ _ _ _ _ _).
  set (snap := snapshot service language fullCode cases part000_settle
                 runningSlot (length (posted w))).
  assert (Part000.runCode service sumOfTwoNumbersTests multiplyNumbersTests
            currentProblem language code w
          = (tt, {| results := dense vs; isRunning := false; alerts := alerts w;
                    posted := posted w ++ (request language fullCode <$> cases);
                    published := published w
                                 ++ (snap <$> seq 0 (S (length cases))) |}))
    as ->.
  { unfold Part000.runCode. rewrite Hsuite.
    unfold bind at 1, setIsRunning at 1.
    unfold bind at 1, setResults at 1, updateResults at 1. cbv zeta.
    cbn [results isRunning alerts posted published].
    change (TestSuite.testCases suite) with cases.
    change (code ++ LF ++ TestSuite.testCode suite) with fullCode.
    change (dense (imap _ cases)) with (snap 0).
    unfold bind.
    change (@nil TestResult) with (take 0 vs).
    unfold vs. rewrite part000_loop_run; [|simpl; lia|simpl; lia|done].
    unfold setIsRunning. simpl. fold vs. f_equal. f_equal.
    - apply snapshot_full.
    - by rewrite <- app_assoc. }
  simpl. unfold completes. cbn [results isRunning alerts posted published].
  rewrite (during_app w _ (snap <$> seq 0 (S (length cases)))) by done.
  split; [done|]. split; [done|]. split; [done|]. split; [done|].
  split; [done|]. split; [rewrite length_fmap, length_seq; lia|].
  intros k s Hs. rewrite list_lookup_fmap in Hs.
  destruct (seq 0 (S (length cases)) !! k) as [k'|] eqn:Ek; [|done].
  apply lookup_seq in Ek as [-> Hk]. injection Hs as <-.
  apply (snapshot_progress service language fullCode cases part000_settle
           runningSlot (length (posted w)) part000_settle_numbered
           runningSlot_numbered (0 + k)). simpl. lia.
Qed.

(** *** Consequences of the summary of a run *)

Section Completed.

Variable language : Language.
Variable fullCode : jsstring.
Variable cases : list TestCase.t.
Variable final : list TestResult.
Variables w w' : World.

Hypothesis Hrun : completes language fullCode cases final w w'.
Hypothesis Hfinal : length final = length cases.

Lemma completed_progress k s : during w w' !! k = Some s → progress final k s.
Proof. by apply Hrun. Qed.

Lemma completed_last : ∃ s, during w w' !! length cases = Some s ∧ s = results w'.
Proof.
  destruct Hrun as (Hres & _ & _ & _ & _ & Hlen & Hprog).
  destruct (lookup_lt_is_Some_2 (during w w') (length cases)) as [s Hs]; [lia|].
  exists s. split; [done|]. rewrite Hres.
  destruct (Hprog _ _ Hs) as (Hl & _ & Hslots).
  apply list_eq. intros i. unfold dense. rewrite list_lookup_fmap.
  destruct (decide (i < length final)) as [Hi|Hi].
  - destruct (Hslots i Hi) as (r & -> & _ & Hlt & _).
    destruct Hlt as [-> _]; [lia|done].
  - rewrite !lookup_ge_None_2; [done|lia..].
Qed.

Lemma completed_well_numbered :
  Forall (well_numbered (length cases)) (during w w')
  ∧ well_numbered (length cases) (results w').
Proof.
  assert (∀ k s, during w w' !! k = Some s → well_numbered (length cases) s)
    as Hall.
  { intros k s Hs. destruct (completed_progress k s Hs) as (Hl & _ & Hslots).
    split; [lia|]. intros i Hi.
    destruct (Hslots i) as (r & E & Hn & _); [lia|]. by exists r. }
  split.
  - apply Forall_lookup. intros k s Hs. by apply (Hall k).
  - destruct completed_last as (s & Hs & <-). by apply (Hall _ _ Hs).
Qed.




Lemma completed_keeps_shape : keeps_shape (length cases) w w'.
Proof.
  destruct Hrun as (_ & _ & _ & _ & Hpub & Hlen & _).
  split; [done|]. split; [done|]. apply completed_well_numbered.
Qed.


Lemma completed_slot i r :
  final !! i = Some r → results w' !! i = Some (Some r).
Proof.
  intros E. destruct Hrun as (-> & _). unfold dense.
  by rewrite list_lookup_fmap, E.
Qed.

Lemma completed_length : length (results w') = length cases.
Proof.
  destruct Hrun as (-> & _). unfold dense. by rewrite length_fmap.
Qed.

End Completed.

(** *** The claims about runs *)

(** C6. Without a test suite for the problem and language, [runCode]
    shows one alert and returns: nothing is posted, and the results, the
    running flag and the published arrays are as before. *)
Theorem no_test_suite_alerts_and_posts_nothing
    (service : nat → Submission → Outcome)
    (sumOfTwoNumbersTests multiplyNumbersTests : Language → option TestSuite.t)
    (problem : Problem.t) (language : Language) (code : jsstring) (w : World) :
  Client.testSuite sumOfTwoNumbersTests multiplyNumbersTests problem language
    = None →
  Part000.testCases sumOfTwoNumbersTests multiplyNumbersTests problem language
    = None →
  Client.runCode service sumOfTwoNumbersTests multiplyNumbersTests
    problem language code w
  = (tt, {| results := results w; isRunning := isRunning w;
            alerts := alerts w ++ [lit "No tests found for this language."];
            posted := posted w; published := published w |})
  ∧ Part000.runCode service sumOfTwoNumbersTests multiplyNumbersTests
      problem language code w
    = (tt, {| results := results w; isRunning := isRunning w;
              alerts := alerts w
                        ++ [lit "Test cases not available for this language."];
              posted := posted w; published := published w |}).
Proof.
  intros Ha Hb. unfold Client.runCode, Part000.runCode. by rewrite Ha, Hb.
Qed.

Lemma no_test_suite_alerts_and_posts_nothing_witness :
  let w := {| results := dense [runningSlot 0]; isRunning := true;
              alerts := []; posted := []; published := [] |} in
  posted (Client.runCode Sample.service Sample.sumOfTwoNumbersTests
            Sample.multiplyNumbersTests Sample.problem cpp Sample.code w).2 = []
  ∧ isRunning (Part000.runCode Sample.service Sample.sumOfTwoNumbersTests
                 Sample.multiplyNumbersTests (Problem.mk (lit "toString")) python
                 Sample.code w).2 = true.
Proof.
  intros w. split.
  - destruct (no_test_suite_alerts_and_posts_nothing
                Sample.service Sample.sumOfTwoNumbersTests
                Sample.multiplyNumbersTests Sample.problem cpp Sample.code w)
      as [-> _]; [vm_compute; reflexivity..|reflexivity].
  - destruct (no_test_suite_alerts_and_posts_nothing
                Sample.service Sample.sumOfTwoNumbersTests
                Sample.multiplyNumbersTests (Problem.mk (lit "toString")) python
                Sample.code w)
      as [_ ->]; [vm_compute; reflexivity..|reflexivity].
Defined.

(** C7. With a test suite, the bodies posted by a run are, in order, one
    per test case, each with the id of the language, the same source
    [code ++ "\n" ++ testCode], and the input of its test case as stdin. *)
Theorem every_submission_carries_the_combined_program
    (service : nat → Submission → Outcome)
    (sumOfTwoNumbersTests multiplyNumbersTests : Language → option TestSuite.t)
    (problem : Problem.t) (language : Language) (code : jsstring)
    (w : World) (suite : TestSuite.t) :
  Client.testSuite sumOfTwoNumbersTests multiplyNumbersTests problem language
    = Some suite →
  Part000.testCases sumOfTwoNumbersTests multiplyNumbersTests problem language
    = Some suite →
  let body (testCase : TestCase.t) :=
    {| language_id := LANGUAGE_IDS language;
       source_code := code ++ LF ++ TestSuite.testCode suite;
       stdin := TestCase.input testCase |} in
  posted (Client.runCode service sumOfTwoNumbersTests multiplyNumbersTests
            problem language code w).2
  = posted w ++ (body <$> TestSuite.testCases suite)
  ∧ posted (Part000.runCode service sumOfTwoNumbersTests multiplyNumbersTests
              problem language code w).2
    = posted w ++ (body <$> TestSuite.testCases suite)
  ∧ LANGUAGE_IDS python = 71%Z ∧ LANGUAGE_IDS javascript = 63%Z
  ∧ LANGUAGE_IDS cpp = 54%Z.
Proof.
  intros Ha Hb body.
  split; [apply (client_run service _ _ _ _ code w _ Ha)|].
  split; [apply (part000_run service _ _ _ _ code w _ Hb)|done].
Qed.

Lemma every_submission_carries_the_combined_program_witness :
  let source :=
    lit "def add(a, b): return a + b" ++ LF
    ++ lit "print(add(*map(int, input().split())))" in
  posted (Client.runCode Sample.service Sample.sumOfTwoNumbersTests
            Sample.multiplyNumbersTests Sample.problem python Sample.code
            Sample.fresh).2
  = [ {| language_id := 71; source_code := source; stdin := lit "2 3" |};
      {| language_id := 71; source_code := source; stdin := lit "0 0" |} ].
Proof.
  intros source.
  destruct (every_submission_carries_the_combined_program
              Sample.service Sample.sumOfTwoNumbersTests
              Sample.multiplyNumbersTests Sample.problem python Sample.code
              Sample.fresh Sample.suite) as (-> & _).
  - vm_compute. reflexivity.
  - vm_compute. reflexivity.
  - reflexivity.
Defined.

(** ** Further properties of the classifiers *)

Lemma trimStart_blank_app ws s : blank ws → trimStart (ws ++ s) = trimStart s.
Proof.
  induction 1 as [|c ws Hc _ IH]; [done|]. simpl. by rewrite Hc.
Qed.

Lemma trimStart_blank ws : blank ws → trimStart ws = [].
Proof.
  intros H. rewrite <- (app_nil_r ws). by rewrite trimStart_blank_app.
Qed.

Lemma trimStart_head c s : is_space c = false → trimStart (c :: s) = c :: s.
Proof. intros H. simpl. by rewrite H. Qed.

Lemma blank_reverse ws : blank ws → blank (reverse ws).
Proof. unfold blank. intros H. by apply Forall_reverse. Qed.

Lemma trimEnd_blank_app s ws : blank ws → trimEnd (s ++ ws) = trimEnd s.
Proof.
  intros H. unfold trimEnd. rewrite reverse_app.
  by rewrite trimStart_blank_app by by apply blank_reverse.
Qed.

Lemma trimEnd_last s c : is_space c = false → trimEnd (s ++ [c]) = s ++ [c].
Proof.
  intros H. unfold trimEnd. rewrite reverse_snoc, trimStart_head by done.
  by rewrite reverse_cons, reverse_involutive.
Qed.

(** What [trimStart] leaves: the argument without a blank prefix. *)
Lemma trimStart_split s :
  ∃ ws, s = ws ++ trimStart s ∧ blank ws
        ∧ ∀ c, head (trimStart s) = Some c → is_space c = false.
Proof.
  induction s as [|c s (ws & E & Hws & Hh)].
  - exists []. split; [done|]. split; [constructor|]. intros c [=].
  - simpl. destruct (is_space c) eqn:Hc.
    + exists (c :: ws). split; [by rewrite E at 1|]. split; [by constructor|done].
    + exists []. split; [done|]. split; [constructor|].
      intros c' [= <-]. done.
Qed.

Lemma trimEnd_split s :
  ∃ ws, s = trimEnd s ++ ws ∧ blank ws
        ∧ ∀ c, last (trimEnd s) = Some c → is_space c = false.
Proof.
  destruct (trimStart_split (reverse s)) as (ws & E & Hws & Hh).
  exists (reverse ws). split; [|split].
  - unfold trimEnd. rewrite <- reverse_app, <- E. by rewrite reverse_involutive.
  - by apply blank_reverse.
  - unfold trimEnd. intros c. rewrite last_reverse. apply Hh.
Qed.

(** [trim] removes a blank prefix and a blank suffix around a tight
    string, and nothing else. *)
Lemma trim_padded ws1 m ws2 :
  blank ws1 → blank ws2 → tight m → trim (ws1 ++ m ++ ws2) = m.
Proof.
  intros H1 H2 [Hh Hl]. unfold trim. rewrite trimStart_blank_app by done.
  destruct m as [|c m].
  - simpl. rewrite trimStart_blank by done. done.
  - rewrite <- app_comm_cons, trimStart_head by by apply Hh.
    rewrite app_comm_cons, trimEnd_blank_app by done.
    destruct (last (c :: m)) as [d|] eqn:Ed.
    + pose proof (Hl d eq_refl) as Hd.
      apply last_Some in Ed as [m' ->]. by apply trimEnd_last.
    + by apply last_None in Ed.
Qed.

Lemma trim_split s :
  ∃ ws1 ws2, s = ws1 ++ trim s ++ ws2 ∧ blank ws1 ∧ blank ws2 ∧ tight (trim s).
Proof.
  destruct (trimStart_split s) as (ws1 & E1 & H1 & Hh).
  destruct (trimEnd_split (trimStart s)) as (ws2 & E2 & H2 & Hl).
  exists ws1, ws2. unfold trim. split; [by rewrite <- E2|].
  split; [done|]. split; [done|]. split; [|done].
  intros c Hc. apply Hh. rewrite E2.
  destruct (trimEnd (trimStart s)); [done|]. exact Hc.
Qed.

Lemma trim_tight s : tight (trim s).
Proof. by destruct (trim_split s) as (? & ? & _ & _ & _ & ?). Qed.

Lemma trim_idempotent s : trim (trim s) = trim s.
Proof.
  rewrite <- (app_nil_r (trim s)) at 1.
  apply (trim_padded [] (trim s) []); [constructor..|apply trim_tight].
Qed.

Lemma trim_blank ws : blank ws → trim ws = [].
Proof.
  intros H. rewrite <- (app_nil_r ws).
  apply (trim_padded ws [] []); [done|constructor|by split].
Qed.

(** X1. Blank characters around a non-empty stdout do not change the
    result: a classifier treats stdout [ws1 ++ m ++ ws2], with [ws1] and
    [ws2] made of characters that [trim] strips and [m] tight, as it
    treats stdout [m]. *)
Theorem padding_stdout_does_not_change_the_result
    (ws1 m ws2 : jsstring) (result : Judge0Response.t) (testCase : TestCase.t)
    (index : nat) :
  blank ws1 → blank ws2 → tight m → m ≠ [] →
  Client.parseResult (with_stdout (ws1 ++ m ++ ws2) result) testCase index
  = Client.parseResult (with_stdout m result) testCase index
  ∧ Part000.classify (with_stdout (ws1 ++ m ++ ws2) result) testCase index
    = Part000.classify (with_stdout m result) testCase index.
Proof.
  intros H1 H2 Hm Hne. classify_as_parseResult.
  assert (ws1 ++ m ++ ws2 ≠ []) as Hne'.
  { intros E. apply app_eq_nil in E as [_ E]. by apply app_eq_nil in E as [E _]. }
  assert (trim m = m) as Em.
  { rewrite <- (app_nil_r m) at 1.
    by apply (trim_padded [] m []); [constructor..|]. }
  assert (Client.parseResult (with_stdout (ws1 ++ m ++ ws2) result) testCase index
          = Client.parseResult (with_stdout m result) testCase index) as E;
    [|by rewrite E].
  rewrite !parseResult_spec. unfold with_stdout, passedResult.
  cbn [Judge0Response.stdout Judge0Response.stderr Judge0Response.compile_output
       Judge0Response.time Judge0Response.memory].
  rewrite (truthy_Val _ Hne'), (truthy_Val _ Hne).
  by rewrite trim_padded, Em.
Qed.

Lemma padding_stdout_does_not_change_the_result_witness :
  let result := Judge0Response.mk Undefined (Val (lit "note")) Null Undefined Undefined in
  let testCase := TestCase.mk (lit "6 7") (lit "42") in
  Client.parseResult (with_stdout ([32; 9]%N ++ lit "4 2" ++ LF) result) testCase 0
  = Client.parseResult (with_stdout (lit "4 2") result) testCase 0.
Proof.
  intros result testCase.
  apply (padding_stdout_does_not_change_the_result
           [32; 9]%N (lit "4 2") LF result testCase 0).
  - repeat constructor.
  - repeat constructor.
  - split; intros c [= <-]; reflexivity.
  - discriminate.
Defined.

(** X2. A test case whose expected output starts or ends with a
    character that [trim] strips can never pass, whatever the response. *)
Theorem expected_output_with_outer_blank_never_passes
    (result : Judge0Response.t) (testCase : TestCase.t) (index : nat) (c : N) :
  head (TestCase.expectedOutput testCase) = Some c
  ∨ last (TestCase.expectedOutput testCase) = Some c →
  is_space c = true →
  status (Client.parseResult result testCase index) ≠ passed
  ∧ status (Part000.classify result testCase index) ≠ passed.
Proof.
  intros Hc Hs. classify_as_parseResult.
  assert (status (Client.parseResult result testCase index) ≠ passed) as H;
    [|done].
  rewrite parseResult_passed_iff. intros (out & _ & _ & E).
  destruct (trim_tight out) as [Hh Hl]. rewrite E in Hh, Hl.
  destruct Hc as [Hc|Hc]; [apply Hh in Hc|apply Hl in Hc]; congruence.
Qed.

Lemma expected_output_with_outer_blank_never_passes_witness :
  let result := Judge0Response.mk (Val (lit "5" ++ LF)) Undefined Undefined
                                  Undefined Undefined in
  status (Client.parseResult result (TestCase.mk (lit "2 3") (lit "5" ++ LF)) 0)
  ≠ passed.
Proof.
  intros result.
  apply (expected_output_with_outer_blank_never_passes
           result (TestCase.mk (lit "2 3") (lit "5" ++ LF)) 0 10%N).
  - right. reflexivity.
  - reflexivity.
Defined.

(** X3. A stdout that is not empty but holds only characters that [trim]
    strips counts as the empty output: it passes a test case whose
    expected output is empty, and against any other expected output,
    with falsy stderr and compile_output, it is a wrong answer whose
    [actual] is the empty string. *)
Theorem blank_stdout_is_the_empty_output
    (result : Judge0Response.t) (testCase : TestCase.t) (index : nat)
    (out : jsstring) :
  Judge0Response.stdout result = Val out → out ≠ [] → blank out →
  (TestCase.expectedOutput testCase = [] →
     Client.parseResult result testCase index
       = passedResult (index + 1) testCase [] result
     ∧ Part000.classify result testCase index
       = passedResult (index + 1) testCase [] result)
  ∧ (TestCase.expectedOutput testCase ≠ [] →
     falsy (Judge0Response.stderr result) →
     falsy (Judge0Response.compile_output result) →
     Client.parseResult result testCase index
       = wrongAnswer (index + 1) testCase []
     ∧ Part000.classify result testCase index
       = wrongAnswer (index + 1) testCase []).
Proof.
  intros E Hne Hb. classify_as_parseResult.
  pose proof (trim_blank out Hb) as Et.
  split.
  - intros Ee.
    assert (trim out = TestCase.expectedOutput testCase) as Em by congruence.
    rewrite (parseResult_passed _ _ _ _ E Hne Em), Et. done.
  - intros Ee He Hc.
    assert (status (Client.parseResult result testCase index) ≠ passed) as Hs.
    { rewrite parseResult_passed_iff. intros (out' & E' & _ & Em).
      rewrite E in E'. injection E' as <-. congruence. }
    rewrite (parseResult_wrong_answer _ _ _ He Hc Hs), E.
    rewrite (truthy_Val _ Hne), Et. done.
Qed.

Lemma blank_stdout_is_the_empty_output_witness :
  let result := Judge0Response.mk (Val (lit " " ++ LF)) Undefined Undefined
                                  Undefined Undefined in
  Client.parseResult result (TestCase.mk (lit "0") []) 0
  = passedResult 1 (TestCase.mk (lit "0") []) [] result
  ∧ Part000.classify result (TestCase.mk (lit "0") (lit "0")) 0
    = wrongAnswer 1 (TestCase.mk (lit "0") (lit "0")) [].
Proof.
  intros result. split.
  - destruct (blank_stdout_is_the_empty_output
                result (TestCase.mk (lit "0") []) 0 (lit " " ++ LF))
      as [[H _] _]; [reflexivity|discriminate|repeat constructor|reflexivity|].
    exact H.
  - destruct (blank_stdout_is_the_empty_output
                result (TestCase.mk (lit "0") (lit "0")) 0 (lit " " ++ LF))
      as [_ [_ H]];
      [reflexivity|discriminate|repeat constructor|discriminate
      |reflexivity|reflexivity|].
    exact H.
Defined.

Lemma parseResult_shapes result testCase index :
  let r := Client.parseResult result testCase index in
  (status r = passed ∧ error r = Undefined
   ∧ input r = Val (TestCase.input testCase))
  ∨ (status r = failed ∧ time r = Undefined ∧ memory r = Undefined
     ∧ ((∃ text, text ≠ [] ∧ error r = Val text ∧ input r = Undefined
                 ∧ expected r = Undefined ∧ actual r = Undefined)
        ∨ (error r = Undefined ∧ input r = Val (TestCase.input testCase)
           ∧ expected r = Val (TestCase.expectedOutput testCase)
           ∧ ∃ got, actual r = Val got))).
Proof.
  cbv zeta. rewrite parseResult_spec.
  destruct (truthy (Judge0Response.stdout result)) as [out|];
    [destruct (decide _)|];
    [by left|..];
    (destruct (truthy (Judge0Response.stderr result)) as [e|] eqn:Ee;
     [apply truthy_Some in Ee as [_ Hne]; right; repeat split; left;
      exists e; by repeat split|]);
    (destruct (truthy (Judge0Response.compile_output result)) as [c|] eqn:Ec;
     [apply truthy_Some in Ec as [_ Hne]; right; repeat split; left;
      exists c; by repeat split|]);
    right; repeat split; right; repeat split; by eexists.
Qed.

(** X4. The shape of a classified result: its number is [index + 1]; it
    is either passed, with the input of the test case and no error, or
    failed without time and memory, and then it carries either a
    non-empty error text and none of input, expected and actual, or no
    error and all three of them. *)
Theorem classified_result_has_one_of_three_shapes
    (result : Judge0Response.t) (testCase : TestCase.t) (index : nat)
    (r : TestResult) :
  r = Client.parseResult result testCase index
  ∨ r = Part000.classify result testCase index →
  testNumber r = index + 1
  ∧ ((status r = passed ∧ error r = Undefined
      ∧ input r = Val (TestCase.input testCase))
     ∨ (status r = failed ∧ time r = Undefined ∧ memory r = Undefined
        ∧ ((∃ text, text ≠ [] ∧ error r = Val text ∧ input r = Undefined
                    ∧ expected r = Undefined ∧ actual r = Undefined)
           ∨ (error r = Undefined ∧ input r = Val (TestCase.input testCase)
              ∧ expected r = Val (TestCase.expectedOutput testCase)
              ∧ ∃ got, actual r = Val got)))).
Proof.
  classify_as_parseResult. intros Hr.
  assert (r = Client.parseResult result testCase index) as -> by by destruct Hr.
  split; [apply parseResult_testNumber|apply parseResult_shapes].
Qed.

Lemma classified_result_has_one_of_three_shapes_witness :
  let result := Judge0Response.mk (Val (lit "7")) Undefined (Val (lit "warning"))
                                  (Val (lit "0.01")) (Val 100%Z) in
  let r := Part000.classify result (TestCase.mk (lit "2 3") (lit "5")) 4 in
  testNumber r = 5.
Proof.
  intros result r.
  destruct (classified_result_has_one_of_three_shapes
              result (TestCase.mk (lit "2 3") (lit "5")) 4 r) as [H _].
  - right. reflexivity.
  - exact H.
Defined.

(** X5. The compilation error is reported after the runtime error and
    before the wrong answer: when stdout does not pass and stderr is
    falsy, a non-empty compile_output gives the compilation-error result,
    whose [error] is that text. *)
Theorem compile_error_follows_runtime_error
    (result : Judge0Response.t) (testCase : TestCase.t) (index : nat)
    (text : jsstring) :
  (∀ out, Judge0Response.stdout result = Val out →
          trim out ≠ TestCase.expectedOutput testCase) →
  falsy (Judge0Response.stderr result) →
  Judge0Response.compile_output result = Val text → text ≠ [] →
  Client.parseResult result testCase index = compilationError (index + 1) text
  ∧ Part000.classify result testCase index = compilationError (index + 1) text.
Proof.
  intros Hout He Hc Hne. classify_as_parseResult.
  assert (Client.parseResult result testCase index
          = compilationError (index + 1) text) as E; [|by rewrite E].
  unfold falsy in He.
  rewrite parseResult_spec, He, Hc, (truthy_Val _ Hne).
  destruct (truthy (Judge0Response.stdout result)) as [out|] eqn:Eo; [|done].
  apply truthy_Some in Eo as [Eo _].
  destruct (decide _) as [Heq|_]; [by destruct (Hout _ Eo)|done].
Qed.

Lemma compile_error_follows_runtime_error_witness :
  let result := Judge0Response.mk Null (Val []) (Val (lit "main.cpp:1: error"))
                                  Null Null in
  Client.parseResult result (TestCase.mk (lit "2 3") (lit "5")) 0
  = compilationError 1 (lit "main.cpp:1: error").
Proof.
  intros result.
  apply (compile_error_follows_runtime_error
           result (TestCase.mk (lit "2 3") (lit "5")) 0 (lit "main.cpp:1: error")).
  - intros out [=].
  - reflexivity.
  - reflexivity.
  - discriminate.
Defined.

(** ** Further properties of runs *)

(** The world in which a run of [App.tsx] with a test suite ends. *)
Lemma client_runCode_exact service sumOfTwoNumbersTests multiplyNumbersTests
    problem language code w suite :
  Client.testSuite sumOfTwoNumbersTests multiplyNumbersTests problem language
    = Some suite →
  let cases := TestSuite.testCases suite in
  let fullCode := code ++ LF ++ TestSuite.testCode suite in
  let base := length (posted w) in
  Client.runCode service sumOfTwoNumbersTests multiplyNumbersTests
    problem language code w
  = (tt,
     {| results := dense (verdicts service language fullCode cases client_settle base);
        isRunning := false;
        alerts := alerts w;
        posted := posted w ++ (request language fullCode <$> cases);
        published :=
          published w
          ++ dense (imap (λ i _, runningSlot i) cases)
             :: (snapshot service language fullCode cases client_settle
                   waitingSlot base <$> seq 1 (length cases)) |}).
Proof.
  intros Hsuite cases fullCode base.
  set (vs := verdicts _ _ _ _ _ _).
  unfold Client.runCode. rewrite Hsuite.
  unfold bind at 1, setIsRunning at 1.
  unfold bind at 1, setResults at 1, updateResults at 1. cbv zeta.
  cbn [results isRunning alerts posted published].
  change (TestSuite.testCases suite) with cases.
  change (code ++ LF ++ TestSuite.testCode suite) with fullCode.
  unfold bind.
  change (@nil TestResult) with (take 0 vs).
  unfold vs. rewrite client_loop_run; [|simpl; lia|simpl; lia].
  unfold setIsRunning. simpl. fold vs. f_equal. f_equal.
  - destruct (length cases) eqn:El; [|done].
    apply nil_length_inv in El. unfold vs, verdicts.
    clearbody cases. by subst cases.
  - by rewrite <- app_assoc.
Qed.

(** The world in which a run of [part_000] with a test suite ends. *)
Lemma part000_runCode_exact service sumOfTwoNumbersTests multiplyNumbersTests
    currentProblem language code w suite :
  Part000.testCases sumOfTwoNumbersTests multiplyNumbersTests currentProblem
    language = Some suite →
  let cases := TestSuite.testCases suite in
  let fullCode := code ++ LF ++ TestSuite.testCode suite in
  let base := length (posted w) in
  Part000.runCode service sumOfTwoNumbersTests multiplyNumbersTests
    currentProblem language code w
  = (tt,
     {| results := dense (verdicts service language fullCode cases part000_settle base);
        isRunning := false;
        alerts := alerts w;
        posted := posted w ++ (request language fullCode <$> cases);
        published :=
          published w
          ++ (snapshot service language fullCode cases part000_settle
                runningSlot base <$> seq 0 (S (length cases))) |}).
Proof.
  intros Hsuite cases fullCode base.
  set (vs := verdicts _ _ _ _ _ _).
  set (snap := snapshot service language fullCode cases part000_settle
                 runningSlot base).
  unfold Part000.runCode. rewrite Hsuite.
  unfold bind at 1, setIsRunning at 1.
  unfold bind at 1, setResults at 1, updateResults at 1. cbv zeta.
  cbn [results isRunning alerts posted published].
  change (TestSuite.testCases suite) with cases.
  change (code ++ LF ++ TestSuite.testCode suite) with fullCode.
  change (dense (imap _ cases)) with (snap 0).
  unfold bind.
  change (@nil TestResult) with (take 0 vs).
  unfold vs. rewrite part000_loop_run; [|simpl; lia|simpl; lia|done].
  unfold setIsRunning. simpl. fold vs. f_equal. f_equal.
  - apply snapshot_full.
  - by rewrite <- app_assoc.
Qed.

Lemma count_resolved (l : list TestResult) :
  Forall (λ r, status r ≠ running) l → passedCount l + failedCount l = length l.
Proof.
  unfold passedCount, failedCount.
  induction 1 as [|r l Hr _ IH]; [done|].
  rewrite !filter_cons. destruct (status r) eqn:E; [| |done];
    repeat case_decide; try done; simpl; lia.
Qed.

Lemma count_running (l : list TestResult) :
  Forall (λ r, status r = running) l → passedCount l + failedCount l = 0.
Proof.
  unfold passedCount, failedCount.
  induction 1 as [|r l Hr _ IH]; [done|].
  rewrite !filter_cons, Hr. repeat case_decide; done.
Qed.

Lemma count_app (l1 l2 : list TestResult) :
  passedCount (l1 ++ l2) + failedCount (l1 ++ l2)
  = (passedCount l1 + failedCount l1) + (passedCount l2 + failedCount l2).
Proof.
  unfold passedCount, failedCount. rewrite !filter_app, !length_app. lia.
Qed.

Section SnapshotCounts.

Variable service : nat → Submission → Outcome.
Variable language : Language.
Variable fullCode : jsstring.
Variable cases : list TestCase.t.
Variable settle : nat → TestCase.t → Outcome → TestResult.
Variable pending : nat → TestResult.
Variable base : nat.

Hypothesis settle_numbered : ∀ i testCase o,
  testNumber (settle i testCase o) = i + 1
  ∧ status (settle i testCase o) ≠ running.
Hypothesis pending_numbered : ∀ j,
  testNumber (pending j) = j + 1 ∧ status (pending j) = running.

Local Abbreviation vs := (verdicts service language fullCode cases settle base).

Lemma verdicts_resolved : Forall (λ r, status r ≠ running) vs.
Proof.
  apply Forall_lookup. intros i r Hr. unfold verdicts in Hr.
  rewrite list_lookup_imap in Hr.
  destruct (cases !! i); [|done]. injection Hr as <-. apply settle_numbered.
Qed.

Lemma pendings_running k :
  Forall (λ r, status r = running)
    (imap (λ idx (_ : TestCase.t), pending (k + idx)) (drop k cases)).
Proof.
  apply Forall_lookup. intros i r Hr. rewrite list_lookup_imap in Hr.
  destruct (drop k cases !! i); [|done]. injection Hr as <-.
  apply pending_numbered.
Qed.

(** The counters on the array in which [k] slots are resolved. *)
Lemma snapshot_counts k :
  k ≤ length cases →
  ∃ l, snapshot service language fullCode cases settle pending base k = dense l
       ∧ passedCount l + failedCount l = k.
Proof.
  intros Hk. eexists. split; [reflexivity|].
  rewrite count_app.
  rewrite (count_resolved (take k vs)) by (apply Forall_take, verdicts_resolved).
  rewrite count_running by apply pendings_running.
  rewrite length_take_le by (rewrite length_verdicts; lia). lia.
Qed.

End SnapshotCounts.

(** X6. A run with a test suite shows no alert and ends with
    [isRunning] false, whatever the service answers and whatever the
    flag was before. *)
Theorem run_with_suite_ends_idle_and_silent
    (service : nat → Submission → Outcome)
    (sumOfTwoNumbersTests multiplyNumbersTests : Language → option TestSuite.t)
    (problem : Problem.t) (language : Language) (code : jsstring)
    (w : World) (suite : TestSuite.t) :
  Client.testSuite sumOfTwoNumbersTests multiplyNumbersTests problem language
    = Some suite →
  Part000.testCases sumOfTwoNumbersTests multiplyNumbersTests problem language
    = Some suite →
  let a := (Client.runCode service sumOfTwoNumbersTests multiplyNumbersTests
              problem language code w).2 in
  let b := (Part000.runCode service sumOfTwoNumbersTests multiplyNumbersTests
              problem language code w).2 in
  (isRunning a = false ∧ alerts a = alerts w)
  ∧ (isRunning b = false ∧ alerts b = alerts w).
Proof.
  intros Ha Hb a b. unfold a, b.
  rewrite (client_runCode_exact service _ _ _ _ code w _ Ha).
  rewrite (part000_runCode_exact service _ _ _ _ code w _ Hb). done.
Qed.

Lemma run_with_suite_ends_idle_and_silent_witness :
  let w := {| results := []; isRunning := true; alerts := [lit "earlier"];
              posted := []; published := [] |} in
  isRunning (Client.runCode Sample.silent Sample.sumOfTwoNumbersTests
               Sample.multiplyNumbersTests Sample.problem python Sample.code
               w).2 = false
  ∧ alerts (Part000.runCode Sample.silent Sample.sumOfTwoNumbersTests
              Sample.multiplyNumbersTests Sample.problem python Sample.code
              w).2 = [lit "earlier"].
Proof.
  intros w.
  destruct (run_with_suite_ends_idle_and_silent
              Sample.silent Sample.sumOfTwoNumbersTests
              Sample.multiplyNumbersTests Sample.problem python Sample.code
              w Sample.suite) as [[Ha _] [_ Hb]].
  - vm_compute. reflexivity.
  - vm_compute. reflexivity.
  - split; [exact Ha|exact Hb].
Defined.

(** X9. A run over a suite without test cases posts nothing, publishes
    the empty array once, and ends with an empty result state and
    [isRunning] false. *)
Theorem run_over_an_empty_suite
    (service : nat → Submission → Outcome)
    (sumOfTwoNumbersTests multiplyNumbersTests : Language → option TestSuite.t)
    (problem : Problem.t) (language : Language) (code : jsstring)
    (w : World) (suite : TestSuite.t) :
  Client.testSuite sumOfTwoNumbersTests multiplyNumbersTests problem language
    = Some suite →
  Part000.testCases sumOfTwoNumbersTests multiplyNumbersTests problem language
    = Some suite →
  TestSuite.testCases suite = [] →
  let ended := {| results := []; isRunning := false; alerts := alerts w;
                  posted := posted w; published := published w ++ [[]] |} in
  Client.runCode service sumOfTwoNumbersTests multiplyNumbersTests
    problem language code w = (tt, ended)
  ∧ Part000.runCode service sumOfTwoNumbersTests multiplyNumbersTests
      problem language code w = (tt, ended).
Proof.
  intros Ha Hb Hnil ended. unfold ended.
  rewrite (client_runCode_exact service _ _ _ _ code w _ Ha).
  rewrite (part000_runCode_exact service _ _ _ _ code w _ Hb).
  cbv zeta. unfold snapshot, verdicts. rewrite Hnil. simpl.
  by rewrite app_nil_r.
Qed.

Lemma run_over_an_empty_suite_witness :
  let fixture (l : Language) := Some (TestSuite.mk (lit "pass") []) in
  (Client.runCode Sample.service fixture fixture Sample.problem cpp Sample.code
     Sample.fresh).2
  = {| results := []; isRunning := false; alerts := []; posted := [];
       published := [[]] |}.
Proof.
  intros fixture.
  destruct (run_over_an_empty_suite
              Sample.service fixture fixture Sample.problem cpp Sample.code
              Sample.fresh (TestSuite.mk (lit "pass") [])) as [-> _].
  - vm_compute. reflexivity.
  - vm_compute. reflexivity.
  - reflexivity.
  - reflexivity.
Defined.



(** X11. A run discards what was there before: with a test suite, the
    arrays it publishes and the result state it ends with depend on the
    world it starts from only through the number of calls made so far. *)
Theorem run_discards_the_previous_results
    (service : nat → Submission → Outcome)
    (sumOfTwoNumbersTests multiplyNumbersTests : Language → option TestSuite.t)
    (problem : Problem.t) (language : Language) (code : jsstring)
    (w1 w2 : World) (suite : TestSuite.t) :
  Client.testSuite sumOfTwoNumbersTests multiplyNumbersTests problem language
    = Some suite →
  Part000.testCases sumOfTwoNumbersTests multiplyNumbersTests problem language
    = Some suite →
  length (posted w1) = length (posted w2) →
  let client := Client.runCode service sumOfTwoNumbersTests multiplyNumbersTests
                  problem language code in
  let part000 := Part000.runCode service sumOfTwoNumbersTests multiplyNumbersTests
                   problem language code in
  (results (client w1).2 = results (client w2).2
   ∧ during w1 (client w1).2 = during w2 (client w2).2)
  ∧ (results (part000 w1).2 = results (part000 w2).2
     ∧ during w1 (part000 w1).2 = during w2 (part000 w2).2).
Proof.
  intros Ha Hb Hp client part000. unfold client, part000.
  rewrite !(client_runCode_exact service _ _ _ _ code _ _ Ha).
  rewrite !(part000_runCode_exact service _ _ _ _ code _ _ Hb).
  cbv zeta. cbn [snd results]. rewrite Hp.
  split; split; try done.
  - erewrite (during_app w1) by reflexivity.
    by erewrite (during_app w2) by reflexivity.
  - erewrite (during_app w1) by reflexivity.
    by erewrite (during_app w2) by reflexivity.
Qed.

Lemma run_discards_the_previous_results_witness :
  let stale := {| results := dense [apiError 9 Undefined]; isRunning := true;
                  alerts := [lit "x"]; posted := [];
                  published := [[]; []] |} in
  results (Part000.runCode Sample.service Sample.sumOfTwoNumbersTests
             Sample.multiplyNumbersTests Sample.problem python Sample.code
             stale).2
  = results (Part000.runCode Sample.service Sample.sumOfTwoNumbersTests
               Sample.multiplyNumbersTests Sample.problem python Sample.code
               Sample.fresh).2.
Proof.
  intros stale.
  destruct (run_discards_the_previous_results
              Sample.service Sample.sumOfTwoNumbersTests
              Sample.multiplyNumbersTests Sample.problem python Sample.code
              stale Sample.fresh Sample.suite) as [_ [H _]].
  - vm_compute. reflexivity.
  - vm_compute. reflexivity.
  - reflexivity.
  - exact H.
Defined.

Lemma part000_loop_published service language fullCode cases fuel i acc w :
  ∃ l, published (Part000.loop service language fullCode cases fuel i acc w).2
       = published w ++ l.
Proof.
  revert i acc w. induction fuel as [|fuel IH]; intros i acc w.
  - exists []. simpl. by rewrite app_nil_r.
  - destruct (cases !! i) as [testCase|] eqn:E.
    + rewrite (part000_loop_step _ _ _ _ fuel i acc w testCase _ E eq_refl).
      destruct (IH (i + 1)
                  (acc ++ [part000_settle i testCase
                             (service (length (posted w))
                                (request language fullCode testCase))])
                  {| results :=
                       array_set i
                         (part000_settle i testCase
                            (service (length (posted w))
                               (request language fullCode testCase)))
                         (results w);
                     isRunning := isRunning w; alerts := alerts w;
                     posted := posted w ++ [request language fullCode testCase];
                     published :=
                       published w
                       ++ [array_set i
                             (part000_settle i testCase
                                (service (length (posted w))
                                   (request language fullCode testCase)))
                             (results w)] |}) as [l ->].
      eexists. cbn [published]. by rewrite <- app_assoc.
    + exists []. simpl. rewrite E. simpl. by rewrite app_nil_r.
Qed.

(** X12. The loop of [part_000] writes slot [i] into whatever the result
    state holds at that moment.  When the state is shorter than [i]
    (it was emptied or replaced while the call was pending), the array
    that iteration [i] publishes is that state, then holes, then the
    result: [i + 1] entries, not one per test case. *)
Theorem part000_store_into_a_shorter_state_leaves_holes
    (service : nat → Submission → Outcome) (language : Language)
    (fullCode : jsstring) (cases : list TestCase.t) (fuel i : nat)
    (acc : list TestResult) (w : World) (testCase : TestCase.t) :
  cases !! i = Some testCase →
  length (results w) ≤ i →
  let r := part000_settle i testCase
             (service (length (posted w)) (request language fullCode testCase)) in
  let stored := results w ++ replicate (i - length (results w)) None ++ [Some r] in
  published (Part000.loop service language fullCode cases (S fuel) i acc w).2
    !! length (published w) = Some stored
  ∧ length stored = i + 1.
Proof.
  intros E Hlen r stored. split.
  - rewrite (part000_loop_step _ _ _ _ fuel i acc w testCase _ E eq_refl).
    fold r.
    match goal with
    | |- context [Part000.loop _ _ _ _ _ _ ?acc' ?w'] =>
        destruct (part000_loop_published service language fullCode cases
                    fuel (i + 1) acc' w') as [l ->]
    end.
    cbn [published]. rewrite <- app_assoc.
    rewrite lookup_app_r by lia. rewrite Nat.sub_diag. simpl.
    unfold array_set. by destruct (decide (i < length (results w))); [lia|].
  - unfold stored. rewrite !length_app, length_replicate. simpl. lia.
Qed.

Lemma part000_store_into_a_shorter_state_leaves_holes_witness :
  let emptied := {| results := []; isRunning := true; alerts := [];
                    posted := [request python (lit "x") (TestCase.mk (lit "2 3") (lit "5"))];
                    published := [[]] |} in
  published (Part000.loop Sample.service python (lit "x")
               (TestSuite.testCases Sample.suite) 1 1
               [apiError 1 Undefined] emptied).2 !! 1
  = Some [None; Some (apiError 2 (Val (lit "Network Error")))].
Proof.
  intros emptied.
  destruct (part000_store_into_a_shorter_state_leaves_holes
              Sample.service python (lit "x") (TestSuite.testCases Sample.suite)
              0 1 [apiError 1 Undefined] emptied
              (TestCase.mk (lit "0 0") (lit "0"))) as [H _].
  - reflexivity.
  - simpl. apply Nat.le_0_l.
  - exact H.
Defined.

Lemma client_loop_related service language fullCode cases fuel i acc w1 w2 :
  length (posted w1) = length (posted w2) →
  let r1 := Client.loop service language fullCode cases fuel i acc w1 in
  let r2 := Client.loop service language fullCode cases fuel i acc w2 in
  r1.1 = r2.1
  ∧ ∃ l, published r1.2 = published w1 ++ l
         ∧ published r2.2 = published w2 ++ l
         ∧ (results w1 = results w2 ∨ l ≠ [] → results r1.2 = results r2.2).
Proof.
  revert i acc w1 w2. induction fuel as [|fuel IH]; intros i acc w1 w2 Hp.
  - simpl. split; [done|]. exists []. rewrite !app_nil_r.
    split; [done|]. split; [done|]. by intros [?|?].
  - destruct (cases !! i) as [case_i|] eqn:E.
    + cbv zeta.
      rewrite (client_loop_step _ _ _ _ fuel i acc w1 case_i _ _ E eq_refl eq_refl).
      rewrite (client_loop_step _ _ _ _ fuel i acc w2 case_i _ _ E eq_refl eq_refl).
      rewrite Hp.
      match goal with
      | |- (Client.loop _ _ _ _ _ _ ?acc' ?W1).1 = (Client.loop _ _ _ _ _ _ _ ?W2).1 ∧ _ =>
          destruct (IH (i + 1) acc' W1 W2) as (Hr & l & P1 & P2 & Hres)
      end.
      { cbn [posted]. rewrite !length_app. simpl. lia. }
      split; [exact Hr|]. eexists (_ :: l).
      split; [rewrite P1; cbn [published]; by rewrite <- app_assoc|].
      split; [rewrite P2; cbn [published]; by rewrite <- app_assoc|].
      intros _. exact (Hres (or_introl eq_refl)).
    + simpl. rewrite E. simpl. split; [done|]. exists []. rewrite !app_nil_r.
      split; [done|]. split; [done|]. by intros [?|?].
Qed.

(** X13. The loop of [App.tsx] rebuilds the whole array in every
    iteration, so what the result state holds when an iteration stores
    its result does not matter: entered at an index within range in two
    worlds with the same number of calls made, the loop returns the same
    results, publishes the same arrays and ends with the same result
    state. *)
Theorem client_loop_ignores_the_result_state
    (service : nat → Submission → Outcome) (language : Language)
    (fullCode : jsstring) (cases : list TestCase.t) (fuel i : nat)
    (acc : list TestResult) (w1 w2 : World) (case_i : TestCase.t) :
  cases !! i = Some case_i →
  length (posted w1) = length (posted w2) →
  let r1 := Client.loop service language fullCode cases (S fuel) i acc w1 in
  let r2 := Client.loop service language fullCode cases (S fuel) i acc w2 in
  r1.1 = r2.1 ∧ results r1.2 = results r2.2 ∧ during w1 r1.2 = during w2 r2.2.
Proof.
  intros E Hp r1 r2.
  destruct (client_loop_related service language fullCode cases (S fuel) i acc
              w1 w2 Hp) as (Hr & l & P1 & P2 & Hres).
  fold r1 r2 in Hr, P1, P2, Hres.
  split; [exact Hr|].
  rewrite (during_app _ _ _ P1), (during_app _ _ _ P2). split; [|done].
  apply Hres. right. intros ->. rewrite app_nil_r in P1.
  unfold r1 in P1.
  rewrite (client_loop_step _ _ _ _ fuel i acc w1 case_i _ _ E eq_refl eq_refl)
    in P1.
  match type of P1 with
  | context [Client.loop _ _ _ _ _ _ ?acc' ?w'] =>
      destruct (client_loop_related service language fullCode cases fuel (i + 1)
                  acc' w' w' eq_refl) as (_ & l' & P & _)
  end.
  rewrite P in P1. cbn [published] in P1. rewrite <- app_assoc in P1.
  apply (f_equal length) in P1. rewrite !length_app in P1. simpl in P1. lia.
Qed.

Lemma client_loop_ignores_the_result_state_witness :
  let emptied := {| results := []; isRunning := true; alerts := [];
                    posted := [request python (lit "x") (TestCase.mk (lit "2 3") (lit "5"))];
                    published := [[]] |} in
  let kept := {| results := dense [apiError 1 Undefined; waitingSlot 1];
                 isRunning := true; alerts := [];
                 posted := [request python (lit "x") (TestCase.mk (lit "2 3") (lit "5"))];
                 published := [] |} in
  results (Client.loop Sample.service python (lit "x")
             (TestSuite.testCases Sample.suite) 1 1
             [apiError 1 Undefined] emptied).2
  = results (Client.loop Sample.service python (lit "x")
               (TestSuite.testCases Sample.suite) 1 1
               [apiError 1 Undefined] kept).2.
Proof.
  intros emptied kept.
  destruct (client_loop_ignores_the_result_state
              Sample.service python (lit "x") (TestSuite.testCases Sample.suite)
              0 1 [apiError 1 Undefined] emptied kept
              (TestCase.mk (lit "0 0") (lit "0"))) as (_ & H & _).
  - reflexivity.
  - reflexivity.
  - exact H.
Defined.

(** ** Rows, handlers and sessions *)

(** X14. What a row of a classified result shows: the failed details
    exactly for a wrong answer on a test case with a non-empty input, the
    error exactly for a runtime or compilation error, never both; a
    passed row shows neither (and the passed details of [part_000]). *)
Theorem classified_row_shows_details_or_error
    (result : Judge0Response.t) (testCase : TestCase.t) (index : nat)
    (r : TestResult) :
  r = Client.parseResult result testCase index
  ∨ r = Part000.classify result testCase index →
  (showsFailedDetails r = true
   ↔ status r = failed ∧ error r = Undefined ∧ TestCase.input testCase ≠ [])
  ∧ (showsError r = true ↔ status r = failed ∧ error r ≠ Undefined)
  ∧ (showsPassedDetails r = true ↔ status r = passed)
  ∧ showsFailedDetails r && showsError r = false.
Proof.
  classify_as_parseResult. intros Hr.
  assert (r = Client.parseResult result testCase index) as -> by by destruct Hr.
  unfold showsFailedDetails, showsError, showsPassedDetails.
  destruct (parseResult_shapes result testCase index)
    as [(Hs & He & Hi)|(Hs & _ & _ & [(text & Hne & He & Hi & _)|(He & Hi & _)])];
    rewrite Hs, He, Hi; simpl.
  - repeat split; try done; by intros (? & _).
  - destruct text as [|c0 t0]; [done|]. simpl.
    repeat split; try done; by intros (_ & ? & _).
  - destruct (TestCase.input testCase) as [|c0 s0]; simpl;
      repeat split; try done; try (by intros (_ & ?)); by intros (_ & _ & ?).
Qed.

Lemma classified_row_shows_details_or_error_witness :
  let result := Judge0Response.mk (Val (lit "7")) Undefined Undefined
                                  Undefined Undefined in
  showsFailedDetails (Client.parseResult result (TestCase.mk [] (lit "5")) 0)
  = false.
Proof.
  intros result.
  destruct (classified_row_shows_details_or_error
              result (TestCase.mk [] (lit "5")) 0
              (Client.parseResult result (TestCase.mk [] (lit "5")) 0))
    as (H & _).
  - left. reflexivity.
  - apply not_true_is_false. intros E.
    apply H in E as (_ & _ & Hin). destruct Hin. reflexivity.
Defined.



(** X16. After a change of language a run submits the starter code of
    the new language: on a page with no run in progress, selecting a
    language for which the problem has a suite and clicking Run posts,
    for every test case, the id of that language and the starter code
    followed by the harness; the code typed before is gone. *)
Theorem language_change_then_run_submits_the_starter_code
    (service : nat → Submission → Outcome)
    (sumOfTwoNumbersTests multiplyNumbersTests : Language → option TestSuite.t)
    (problems : list Entry.t) (p : Page.t) (entry : Entry.t) (lang : Language)
    (suite : TestSuite.t) :
  problems !! Page.problemIdx p = Some entry →
  isRunning (Page.world p) = false →
  Client.testSuite sumOfTwoNumbersTests multiplyNumbersTests
    (Entry.fields entry) lang = Some suite →
  Part000.testCases sumOfTwoNumbersTests multiplyNumbersTests
    (Entry.fields entry) lang = Some suite →
  let body (testCase : TestCase.t) :=
    {| language_id := LANGUAGE_IDS lang;
       source_code := Entry.starterCode entry lang ++ LF
                      ++ TestSuite.testCode suite;
       stdin := TestCase.input testCase |} in
  let ended (p' : Page.t) :=
    Page.language p' = lang ∧ Page.code p' = Entry.starterCode entry lang
    ∧ Page.problemIdx p' = Page.problemIdx p
    ∧ posted (Page.world p')
      = posted (Page.world p) ++ (body <$> TestSuite.testCases suite) in
  (∃ p', session problems
           (Client.runCode service sumOfTwoNumbersTests multiplyNumbersTests)
           [SelectLanguage lang; ClickRun] p = Some p' ∧ ended p')
  ∧ (∃ p', session problems
             (Part000.runCode service sumOfTwoNumbersTests multiplyNumbersTests)
             [SelectLanguage lang; ClickRun] p = Some p' ∧ ended p').
Proof.
  intros Hp Hidle Ha Hb body ended.
  split; eexists; (split;
    [simpl; unfold handle; rewrite Hp; simpl; rewrite Hp, Hidle; reflexivity|]);
    unfold ended; simpl; repeat split.
  - rewrite (client_runCode_exact service _ _ _ _ _ _ _ Ha). reflexivity.
  - rewrite (part000_runCode_exact service _ _ _ _ _ _ _ Hb). reflexivity.
Qed.

Lemma language_change_then_run_submits_the_starter_code_witness :
  let starter (l : Language) :=
    match l with python => lit "def add(a, b):" | _ => lit "// todo" end in
  let problems := [Entry.mk Sample.problem starter] in
  let p := Page.mk 0 cpp (lit "int main() {}") Sample.fresh in
  ∃ p', session problems
          (Client.runCode Sample.service Sample.sumOfTwoNumbersTests
             Sample.multiplyNumbersTests)
          [SelectLanguage python; ClickRun] p = Some p'
        ∧ Page.code p' = lit "def add(a, b):".
Proof.
  intros starter problems p.
  destruct (language_change_then_run_submits_the_starter_code
              Sample.service Sample.sumOfTwoNumbersTests
              Sample.multiplyNumbersTests problems p
              (Entry.mk Sample.problem starter) python Sample.suite)
    as [(p' & Hs & _ & Hc & _) _].
  - reflexivity.
  - reflexivity.
  - vm_compute. reflexivity.
  - vm_compute. reflexivity.
  - exists p'. split; [exact Hs|exact Hc].
Defined.

(** X17. The bounds of a problem change.  On a page that renders, an
    index within the catalogue selects that problem, loads its starter
    code for the current language and empties the results; an index
    beyond it makes the handler throw after the index was stored, with
    code and results untouched, and the page it leaves no longer
    renders. *)
Theorem problem_change_within_and_beyond_the_catalogue
    (problems : list Entry.t)
    (run : Problem.t → Language → jsstring → Eff unit)
    (p : Page.t) (entry : Entry.t) (idx : nat) :
  problems !! Page.problemIdx p = Some entry →
  (∀ target, problems !! idx = Some target →
     ∃ p', handle problems run (SelectProblem idx) p = Some (Returned p')
           ∧ Page.problemIdx p' = idx
           ∧ Page.language p' = Page.language p
           ∧ Page.code p' = Entry.starterCode target (Page.language p)
           ∧ results (Page.world p') = []
           ∧ posted (Page.world p') = posted (Page.world p)
           ∧ isRunning (Page.world p') = isRunning (Page.world p))
  ∧ (length problems ≤ idx →
     ∃ p', handle problems run (SelectProblem idx) p = Some (Threw p')
           ∧ Page.problemIdx p' = idx
           ∧ Page.code p' = Page.code p
           ∧ Page.world p' = Page.world p
           ∧ ∀ ev, handle problems run ev p' = None).
Proof.
  intros Hp. split.
  - intros target Ht. eexists. split.
    + unfold handle, updateProblem. rewrite Hp, Ht. reflexivity.
    + by repeat split.
  - intros Hidx. apply lookup_ge_None_2 in Hidx. eexists. split.
    + unfold handle, updateProblem. rewrite Hp, Hidx. reflexivity.
    + repeat split. intros ev. unfold handle. simpl. by rewrite Hidx.
Qed.

Lemma problem_change_within_and_beyond_the_catalogue_witness :
  let starter (l : Language) := lit "start" in
  let problems := [Entry.mk Sample.problem starter] in
  let p := Page.mk 0 python (lit "mine") Sample.fresh in
  ∃ p', handle problems (λ _ _ _, ret tt) (SelectProblem 3) p = Some (Threw p')
        ∧ handle problems (λ _ _ _, ret tt) ClickRun p' = None.
Proof.
  intros starter problems p.
  destruct (problem_change_within_and_beyond_the_catalogue
              problems (λ _ _ _, ret tt) p (Entry.mk Sample.problem starter) 3)
    as [_ H]; [reflexivity|].
  destruct H as (p' & Hh & _ & _ & _ & Hno).
  - vm_compute. repeat constructor.
  - exists p'. split; [exact Hh|apply Hno].
Defined.

Section Sessions.

Variables sumOfTwoNumbersTests multiplyNumbersTests :
  Language → option TestSuite.t.
Variable problems : list Entry.t.
Variable run : Problem.t → Language → jsstring → Eff unit.

(** What a session needs of [runCode]: without a suite it leaves the
    result state and the flag alone; with a suite it ends idle with
    one resolved slot per test case. *)
Hypothesis run_settles : ∀ problem language code w,
  match Client.testSuite sumOfTwoNumbersTests multiplyNumbersTests
          problem language with
  | None =>
      results (run problem language code w).2 = results w
      ∧ isRunning (run problem language code w).2 = isRunning w
  | Some suite =>
      isRunning (run problem language code w).2 = false
      ∧ ∃ l, results (run problem language code w).2 = dense l
             ∧ length l = length (TestSuite.testCases suite)
             ∧ Forall (λ r, status r ≠ running) l
  end.

Local Abbreviation settled :=
  (page_settled sumOfTwoNumbersTests multiplyNumbersTests problems).

Lemma handle_keeps_settled ev p p' :
  settled p → handle problems run ev p = Some (Returned p') → settled p'.
Proof.
  intros (entry & Hp & Hidle & Hres) Hh. unfold handle in Hh.
  rewrite Hp in Hh. injection Hh as Hh.
  destruct ev as [idx|lang|val|].
  - unfold updateProblem in Hh.
    destruct (problems !! idx) as [target|] eqn:Ht; [|done].
    injection Hh as <-. exists target. simpl.
    split; [done|]. split; [done|]. by left.
  - injection Hh as <-. exists entry. simpl.
    split; [done|]. split; [done|]. by left.
  - injection Hh as <-. by exists entry.
  - rewrite Hidle in Hh. injection Hh as <-. exists entry. simpl.
    split; [done|].
    pose proof (run_settles (Entry.fields entry) (Page.language p)
                  (Page.code p) (Page.world p)) as Hrun.
    destruct (Client.testSuite sumOfTwoNumbersTests multiplyNumbersTests
                (Entry.fields entry) (Page.language p)) as [suite|] eqn:Es.
    + destruct Hrun as (Hi & l & Hl & Hn & Hall).
      split; [done|]. right. by exists suite, l.
    + destruct Hrun as (Hr & Hi). rewrite Hr, Hi. by split.
Qed.

Lemma session_keeps_settled evs p p' :
  settled p → session problems run evs p = Some p' → settled p'.
Proof.
  revert p. induction evs as [|ev evs IH]; intros p Hp Hs; simpl in Hs.
  - by injection Hs as <-.
  - destruct (handle problems run ev p) as [[q|q]|] eqn:Hh; [|done..].
    apply (IH q); [|done]. by apply (handle_keeps_settled ev p).
Qed.

Lemma firstPage_settled p0 : firstPage problems = Some p0 → settled p0.
Proof.
  unfold firstPage. destruct (problems !! 0) as [entry|] eqn:E; [|done].
  intros [= <-]. exists entry. simpl.
  split; [done|]. split; [done|]. by left.
Qed.

End Sessions.

Lemma client_run_settles service sumOfTwoNumbersTests multiplyNumbersTests
    problem language code w :
  match Client.testSuite sumOfTwoNumbersTests multiplyNumbersTests
          problem language with
  | None =>
      results (Client.runCode service sumOfTwoNumbersTests multiplyNumbersTests
                 problem language code w).2 = results w
      ∧ isRunning (Client.runCode service sumOfTwoNumbersTests
                     multiplyNumbersTests problem language code w).2
        = isRunning w
  | Some suite =>
      isRunning (Client.runCode service sumOfTwoNumbersTests
                   multiplyNumbersTests problem language code w).2 = false
      ∧ ∃ l, results (Client.runCode service sumOfTwoNumbersTests
                        multiplyNumbersTests problem language code w).2
             = dense l
             ∧ length l = length (TestSuite.testCases suite)
             ∧ Forall (λ r, status r ≠ running) l
  end.
Proof.
  destruct (Client.testSuite _ _ _ _) as [suite|] eqn:Es.
  - rewrite (client_runCode_exact service _ _ _ _ code w _ Es). cbv zeta.
    split; [done|]. eexists. split; [reflexivity|].
    split; [apply length_verdicts|].
    apply (verdicts_resolved _ _ _ _ _ _ client_settle_numbered).
  - unfold Client.runCode. by rewrite Es.
Qed.

Lemma part000_run_settles service sumOfTwoNumbersTests multiplyNumbersTests
    problem language code w :
  match Client.testSuite sumOfTwoNumbersTests multiplyNumbersTests
          problem language with
  | None =>
      results (Part000.runCode service sumOfTwoNumbersTests multiplyNumbersTests
                 problem language code w).2 = results w
      ∧ isRunning (Part000.runCode service sumOfTwoNumbersTests
                     multiplyNumbersTests problem language code w).2
        = isRunning w
  | Some suite =>
      isRunning (Part000.runCode service sumOfTwoNumbersTests
                   multiplyNumbersTests problem language code w).2 = false
      ∧ ∃ l, results (Part000.runCode service sumOfTwoNumbersTests
                        multiplyNumbersTests problem language code w).2
             = dense l
             ∧ length l = length (TestSuite.testCases suite)
             ∧ Forall (λ r, status r ≠ running) l
  end.
Proof.
  change (Client.testSuite sumOfTwoNumbersTests multiplyNumbersTests
            problem language)
    with (Part000.testCases sumOfTwoNumbersTests multiplyNumbersTests
            problem language).
  destruct (Part000.testCases _ _ _ _) as [suite|] eqn:Es.
  - rewrite (part000_runCode_exact service _ _ _ _ code w _ Es). cbv zeta.
    split; [done|]. eexists. split; [reflexivity|].
    split; [apply length_verdicts|].
    apply (verdicts_resolved _ _ _ _ _ _ part000_settle_numbered).
  - unfold Part000.runCode. by rewrite Es.
Qed.

(** X18. Between two events the page is settled.  Starting from the
    first render, after any sequence of problem changes, language
    changes, edits and runs that the page handled, the current problem
    exists, [isRunning] is false, and the result state is empty or
    holds exactly one resolved slot per test case of the suite of the
    current problem and language: a change of problem or language never
    leaves the results of another suite on the page. *)
Theorem page_is_settled_between_events
    (service : nat → Submission → Outcome)
    (sumOfTwoNumbersTests multiplyNumbersTests : Language → option TestSuite.t)
    (problems : list Entry.t) (evs : list Event) (p0 p : Page.t) :
  firstPage problems = Some p0 →
  session problems
    (Client.runCode service sumOfTwoNumbersTests multiplyNumbersTests) evs p0
    = Some p
  ∨ session problems
      (Part000.runCode service sumOfTwoNumbersTests multiplyNumbersTests) evs p0
    = Some p →
  page_settled sumOfTwoNumbersTests multiplyNumbersTests problems p.
Proof.
  intros H0 [Hs|Hs].
  - eapply session_keeps_settled; [|by apply firstPage_settled|exact Hs].
    apply client_run_settles.
  - eapply session_keeps_settled; [|by apply firstPage_settled|exact Hs].
    apply part000_run_settles.
Qed.

Lemma page_is_settled_between_events_witness :
  let starter (l : Language) := lit "start" in
  let problems := [Entry.mk Sample.problem starter;
                   Entry.mk (Problem.mk (lit "multiplyNumbers")) starter] in
  let p0 := Page.mk 0 python (lit "start") Sample.fresh in
  ∃ p,
    session problems
      (Part000.runCode Sample.service Sample.sumOfTwoNumbersTests
         Sample.multiplyNumbersTests)
      [ClickRun; SelectProblem 1; ClickRun; Edit Undefined; SelectLanguage cpp] p0
    = Some p
    ∧ page_settled Sample.sumOfTwoNumbersTests Sample.multiplyNumbersTests
        problems p.
Proof.
  intros starter problems p0. eexists. split; [vm_compute; reflexivity|].
  apply (page_is_settled_between_events
           Sample.service Sample.sumOfTwoNumbersTests
           Sample.multiplyNumbersTests problems
           [ClickRun; SelectProblem 1; ClickRun; Edit Undefined; SelectLanguage cpp]
           p0).
  - reflexivity.
  - right. vm_compute. reflexivity.
Defined.

(** ** Runs amid problem and language changes *)

Lemma emptied_run n w :
  emptied n w
  = (tt, {| results := match n with 0 => results w | S _ => [] end;
            isRunning := isRunning w; alerts := alerts w; posted := posted w;
            published := published w ++ replicate n [] |}).
Proof.
  revert w. induction n as [|n IH]; intros w.
  - simpl. unfold ret. rewrite app_nil_r. by destruct w.
  - simpl. unfold bind, setResults, updateResults. rewrite IH. simpl.
    rewrite <- app_assoc. by destruct n.
Qed.

Lemma awaited_post_run service changes i body w :
  Amid.awaited_post service changes i body w
  = (service (length (posted w)) body,
     {| results := match changes i with 0 => results w | S _ => [] end;
        isRunning := isRunning w; alerts := alerts w;
        posted := posted w ++ [body];
        published := published w ++ replicate (changes i) [] |}).
Proof.
  unfold Amid.awaited_post, bind, axios_post. rewrite emptied_run. done.
Qed.

Section AmidClient.

Variable service : nat → Submission → Outcome.
Variable changes : nat → nat.
Variable language : Language.
Variable fullCode : jsstring.
Variable cases : list TestCase.t.

(** One iteration of the loop of [App.tsx] amid changes. *)
Lemma amid_client_loop_step fuel i newResults w case_i r s :
  cases !! i = Some case_i →
  r = client_settle i case_i
        (service (length (posted w)) (request language fullCode case_i)) →
  s = dense ((newResults ++ [r])
             ++ imap (λ idx _, bare (i + idx + 2) running (lit "Waiting..."))
                     (drop (i + 1) cases)) →
  Amid.client_loop service changes language fullCode cases (S fuel) i
    newResults w
  = Amid.client_loop service changes language fullCode cases fuel (i + 1)
      (newResults ++ [r])
      {| results := s;
         isRunning := isRunning w;
         alerts := alerts w;
         posted := posted w ++ [request language fullCode case_i];
         published := (published w ++ replicate (changes i) []) ++ [s] |}.
Proof.
  intros E -> ->. simpl. rewrite E.
  unfold bind at 1. rewrite awaited_post_run.
  unfold bind, setResults, updateResults, request. simpl.
  by destruct (service _ _).
Qed.

Variable base : nat.

Local Abbreviation vs :=
  (verdicts service language fullCode cases client_settle base).
Local Abbreviation snap :=
  (snapshot service language fullCode cases client_settle waitingSlot base).

(** The loop of [App.tsx] amid changes: it posts, returns and ends as
    the undisturbed loop does, and publishes the same arrays, each
    after the empty arrays of the changes made meanwhile. *)
Lemma amid_client_loop_run fuel i w :
  i + fuel = length cases →
  length (posted w) = base + i →
  Amid.client_loop service changes language fullCode cases fuel i
    (take i vs) w
  = (vs,
     {| results := match fuel with 0 => results w | S _ => dense vs end;
        isRunning := isRunning w;
        alerts := alerts w;
        posted := posted w ++ (request language fullCode <$> drop i cases);
        published :=
          published w ++ weave changes i (snap <$> seq (S i) fuel) |}).
Proof.
  revert i w. induction fuel as [|fuel IH]; intros i w Hfuel Hposted.
  - simpl. unfold ret.
    rewrite take_ge by (rewrite length_verdicts; lia).
    rewrite drop_ge by lia. simpl. rewrite !app_nil_r. by destruct w.
  - destruct (lookup_lt_is_Some_2 cases i) as [case_i E]; [lia|].
    pose proof (verdicts_lookup service language fullCode cases
                  client_settle base i case_i E) as Hv.
    rewrite (amid_client_loop_step fuel i (take i vs) w case_i _ (snap (S i))
               E eq_refl).
    2:{ rewrite (snapshot_S _ _ _ _ _ _ _ _ _ E), Hposted. do 2 f_equal.
        apply imap_ext. intros j ? _. unfold waitingSlot. f_equal. lia. }
    rewrite Hposted, <- (take_S_r _ _ _ Hv).
    rewrite Nat.add_1_r, IH; [|lia|simpl; rewrite length_app; simpl; lia].
    simpl. f_equal. f_equal.
    + destruct fuel; [|done].
      assert (S i = length cases) as -> by lia. apply snapshot_full.
    + rewrite <- app_assoc. simpl. by rewrite (drop_S _ _ _ E).
    + rewrite <- !app_assoc. done.
Qed.

End AmidClient.

(** The world in which a run of [App.tsx] amid changes ends. *)
Lemma amid_client_runCode_exact service changes sumOfTwoNumbersTests
    multiplyNumbersTests problem language code w suite :
  Client.testSuite sumOfTwoNumbersTests multiplyNumbersTests problem language
    = Some suite →
  let cases := TestSuite.testCases suite in
  let fullCode := code ++ LF ++ TestSuite.testCode suite in
  let base := length (posted w) in
  Amid.client_runCode service changes sumOfTwoNumbersTests multiplyNumbersTests
    problem language code w
  = (tt,
     {| results := dense (verdicts service language fullCode cases client_settle base);
        isRunning := false;
        alerts := alerts w;
        posted := posted w ++ (request language fullCode <$> cases);
        published :=
          published w
          ++ woven changes
               (dense (imap (λ i _, runningSlot i) cases)
                :: (snapshot service language fullCode cases client_settle
                      waitingSlot base <$> seq 1 (length cases))) |}).
Proof.
  intros Hsuite cases fullCode base.
  set (vs := verdicts _ _ _ _ _ _).
  unfold Amid.client_runCode. rewrite Hsuite.
  unfold bind at 1, setIsRunning at 1.
  unfold bind at 1, setResults at 1, updateResults at 1. cbv zeta.
  cbn [results isRunning alerts posted published].
  change (TestSuite.testCases suite) with cases.
  change (code ++ LF ++ TestSuite.testCode suite) with fullCode.
  unfold bind.
  change (@nil TestResult) with (take 0 vs).
  unfold vs. rewrite amid_client_loop_run; [|simpl; lia|simpl; lia].
  unfold setIsRunning. simpl. fold vs. f_equal. f_equal.
  - destruct (length cases) eqn:El; [|done].
    apply nil_length_inv in El. unfold vs, verdicts.
    clearbody cases. by subst cases.
  - by rewrite <- app_assoc.
Qed.

(** A run of [App.tsx] amid changes ends as the undisturbed run does and
    publishes its arrays, with the empty arrays of the changes woven in. *)
Lemma amid_client_runCode service changes sumOfTwoNumbersTests
    multiplyNumbersTests problem language code w :
  let a := (Amid.client_runCode service changes sumOfTwoNumbersTests
              multiplyNumbersTests problem language code w).2 in
  let u := (Client.runCode service sumOfTwoNumbersTests multiplyNumbersTests
              problem language code w).2 in
  results a = results u ∧ isRunning a = isRunning u ∧ alerts a = alerts u
  ∧ posted a = posted u
  ∧ published a = published w ++ during w a
  ∧ during w a = woven changes (during w u).
Proof.
  intros a u. unfold a, u.
  destruct (Client.testSuite sumOfTwoNumbersTests multiplyNumbersTests
              problem language) as [suite|] eqn:Es.
  - rewrite (client_runCode_exact service _ _ _ _ code w _ Es).
    rewrite (amid_client_runCode_exact service changes _ _ _ _ code w _ Es).
    cbv zeta. cbn [snd results isRunning alerts posted published].
    erewrite (during_app w) by reflexivity.
    erewrite (during_app w) by reflexivity.
    by repeat split.
  - unfold Amid.client_runCode, Client.runCode. rewrite Es.
    unfold alert. cbn [snd results isRunning alerts posted published].
    assert (during w {| results := results w; isRunning := isRunning w;
                        alerts := alerts w
                                  ++ [lit "No tests found for this language."];
                        posted := posted w; published := published w |} = [])
      as -> by (apply during_app; simpl; by rewrite app_nil_r).
    rewrite app_nil_r. by repeat split.
Qed.

Section AmidPart000.

Variable service : nat → Submission → Outcome.
Variable changes : nat → nat.
Variable language : Language.
Variable fullCode : jsstring.
Variable cases : list TestCase.t.

(** One iteration of the loop of [part_000] amid changes: the result
    is written into the state that the changes left. *)
Lemma amid_part000_loop_step fuel i results0 w testCase r prev :
  cases !! i = Some testCase →
  r = part000_settle i testCase
        (service (length (posted w)) (request language fullCode testCase)) →
  prev = match changes i with 0 => results w | S _ => [] end →
  Amid.part000_loop service changes language fullCode cases (S fuel) i
    results0 w
  = Amid.part000_loop service changes language fullCode cases fuel (i + 1)
      (results0 ++ [r])
      {| results := array_set i r prev;
         isRunning := isRunning w;
         alerts := alerts w;
         posted := posted w ++ [request language fullCode testCase];
         published :=
           (published w ++ replicate (changes i) []) ++ [array_set i r prev] |}.
Proof.
  intros E -> ->. simpl. rewrite E.
  unfold bind at 1. rewrite awaited_post_run.
  unfold bind, updateResults, request. simpl.
  by destruct (service _ _).
Qed.

(** Without changes the loop is the undisturbed loop. *)
Lemma amid_part000_loop_quiet fuel i results0 w :
  (∀ j, i ≤ j → j < i + fuel → changes j = 0) →
  Amid.part000_loop service changes language fullCode cases fuel i results0 w
  = Part000.loop service language fullCode cases fuel i results0 w.
Proof.
  revert i results0 w. induction fuel as [|fuel IH]; intros i acc w Hq; [done|].
  destruct (cases !! i) as [testCase|] eqn:E.
  - rewrite (amid_part000_loop_step fuel i acc w testCase _ _ E eq_refl eq_refl).
    rewrite (part000_loop_step _ _ _ _ fuel i acc w testCase _ E eq_refl).
    rewrite (Hq i) by lia. simpl. rewrite app_nil_r.
    apply IH. intros j ? ?. apply Hq; lia.
  - simpl. by rewrite E.
Qed.


End AmidPart000.

(** A run of [part_000] during which no change is made is the
    undisturbed run. *)
Lemma amid_part000_runCode_quiet service changes sumOfTwoNumbersTests
    multiplyNumbersTests problem language code w suite :
  Part000.testCases sumOfTwoNumbersTests multiplyNumbersTests problem language
    = Some suite →
  quiet (length (TestSuite.testCases suite)) changes →
  Amid.part000_runCode service changes sumOfTwoNumbersTests multiplyNumbersTests
    problem language code w
  = Part000.runCode service sumOfTwoNumbersTests multiplyNumbersTests
      problem language code w.
Proof.
  intros Es Hq. unfold Amid.part000_runCode, Part000.runCode. rewrite Es.
  unfold bind. simpl.
  rewrite amid_part000_loop_quiet; [done|]. intros j _ Hj. apply Hq. lia.
Qed.


Lemma keeps_shape_shaped n w w' :
  keeps_shape n w w' → shaped n (during w w') (results w').
Proof. intros (_ & Hl & Hall & Hf). split; [done|]. by split. Qed.


(** The counters on an undisturbed run of [App.tsx]. *)
Lemma client_counted service sumOfTwoNumbersTests multiplyNumbersTests
    problem language code w suite :
  Client.testSuite sumOfTwoNumbersTests multiplyNumbersTests problem language
    = Some suite →
  let u := (Client.runCode service sumOfTwoNumbersTests multiplyNumbersTests
              problem language code w).2 in
  counted (length (TestSuite.testCases suite)) (during w u) (results u).
Proof.
  intros Es u. unfold u.
  rewrite (client_runCode_exact service _ _ _ _ code w _ Es).
  cbv zeta. cbn [snd].
  set (cases := TestSuite.testCases suite).
  set (fullCode := code ++ LF ++ TestSuite.testCode suite).
  split; cbn [results].
  - erewrite during_app by reflexivity. intros [|k] s Hs; simpl in Hs.
    + injection Hs as <-.
      apply (snapshot_counts service language fullCode cases client_settle
               runningSlot (length (posted w)) client_settle_numbered
               runningSlot_numbered 0). lia.
    + rewrite list_lookup_fmap in Hs.
      destruct (seq 1 (length cases) !! k) as [k'|] eqn:Ek; [|done].
      apply lookup_seq in Ek as [-> Hk]. injection Hs as <-.
      apply (snapshot_counts service language fullCode cases client_settle
               waitingSlot (length (posted w)) client_settle_numbered
               waitingSlot_numbered (1 + k)). lia.
  - eexists. split; [reflexivity|]. split; [apply length_verdicts|].
    rewrite count_resolved
      by apply (verdicts_resolved _ _ _ _ _ _ client_settle_numbered).
    apply length_verdicts.
Qed.

(** The counters on an undisturbed run of [part_000]. *)
Lemma part000_counted service sumOfTwoNumbersTests multiplyNumbersTests
    problem language code w suite :
  Part000.testCases sumOfTwoNumbersTests multiplyNumbersTests problem language
    = Some suite →
  let u := (Part000.runCode service sumOfTwoNumbersTests multiplyNumbersTests
              problem language code w).2 in
  counted (length (TestSuite.testCases suite)) (during w u) (results u).
Proof.
  intros Es u. unfold u.
  rewrite (part000_runCode_exact service _ _ _ _ code w _ Es).
  cbv zeta. cbn [snd].
  set (cases := TestSuite.testCases suite).
  set (fullCode := code ++ LF ++ TestSuite.testCode suite).
  split; cbn [results].
  - erewrite during_app by reflexivity. intros k s Hs.
    rewrite list_lookup_fmap in Hs.
    destruct (seq 0 (S (length cases)) !! k) as [k'|] eqn:Ek; [|done].
    apply lookup_seq in Ek as [-> Hk]. injection Hs as <-.
    apply (snapshot_counts service language fullCode cases part000_settle
             runningSlot (length (posted w)) part000_settle_numbered
             runningSlot_numbered (0 + k)). simpl. lia.
  - eexists. split; [reflexivity|]. split; [apply length_verdicts|].
    rewrite count_resolved
      by apply (verdicts_resolved _ _ _ _ _ _ part000_settle_numbered).
    apply length_verdicts.
Qed.




(** C4. Length and numbering.  With a test suite, every array that a
    run of [App.tsx] itself publishes, and the state in which it ends,
    has one slot per test case with test number [i + 1] at index [i],
    whatever problem or language changes are made meanwhile (each such
    change publishes an empty array of its own between the arrays of the
    run).  In [part_000] the same holds of a run during which no such
    change is made. *)
Theorem run_arrays_keep_length_and_numbering
    (service : nat → Submission → Outcome) (changes : nat → nat)
    (sumOfTwoNumbersTests multiplyNumbersTests : Language → option TestSuite.t)
    (problem : Problem.t) (language : Language) (code : jsstring)
    (w : World) (suite : TestSuite.t) :
  Client.testSuite sumOfTwoNumbersTests multiplyNumbersTests problem language
    = Some suite →
  Part000.testCases sumOfTwoNumbersTests multiplyNumbersTests problem language
    = Some suite →
  let n := length (TestSuite.testCases suite) in
  let a := (Amid.client_runCode service changes sumOfTwoNumbersTests
              multiplyNumbersTests problem language code w).2 in
  let b := (Amid.part000_runCode service changes sumOfTwoNumbersTests
              multiplyNumbersTests problem language code w).2 in
  (published a = published w ++ during w a
   ∧ ∃ own, during w a = woven changes own ∧ shaped n own (results a))
  ∧ (quiet n changes →
     published b = published w ++ during w b
     ∧ shaped n (during w b) (results b)).
Proof.
  intros Ha Hb n a b. split.
  - destruct (amid_client_runCode service changes sumOfTwoNumbersTests
                multiplyNumbersTests problem language code w)
      as (Hr & _ & _ & _ & Hp & Hd).
    fold a in Hr, Hp, Hd. split; [exact Hp|].
    eexists. split; [exact Hd|]. rewrite Hr.
    apply keeps_shape_shaped.
    eapply completed_keeps_shape;
      [exact (client_run service _ _ _ _ code w _ Ha)|apply length_verdicts].
  - intros Hq. unfold b.
    rewrite (amid_part000_runCode_quiet service changes _ _ _ _ code w _ Hb Hq).
    assert (keeps_shape n w
              (Part000.runCode service sumOfTwoNumbersTests multiplyNumbersTests
                 problem language code w).2) as Hk.
    { eapply completed_keeps_shape;
        [exact (part000_run service _ _ _ _ code w _ Hb)|apply length_verdicts]. }
    split; [apply Hk|by apply keeps_shape_shaped].
Qed.

Lemma run_arrays_keep_length_and_numbering_witness :
  let a := (Amid.client_runCode Sample.service (Scenario.change_during 1)
              Sample.sumOfTwoNumbersTests Sample.multiplyNumbersTests
              Sample.problem python Sample.code Sample.fresh).2 in
  let b := (Amid.part000_runCode Sample.service Scenario.none
              Sample.sumOfTwoNumbersTests Sample.multiplyNumbersTests
              Sample.problem python Sample.code Sample.fresh).2 in
  (∃ own, during Sample.fresh a = woven (Scenario.change_during 1) own
          ∧ shaped 2 own (results a))
  ∧ shaped 2 (during Sample.fresh b) (results b).
Proof.
  intros a b. split.
  - destruct (run_arrays_keep_length_and_numbering
                Sample.service (Scenario.change_during 1)
                Sample.sumOfTwoNumbersTests Sample.multiplyNumbersTests
                Sample.problem python Sample.code Sample.fresh Sample.suite)
      as [[_ H] _].
    + vm_compute. reflexivity.
    + vm_compute. reflexivity.
    + exact H.
  - destruct (run_arrays_keep_length_and_numbering
                Sample.service Scenario.none
                Sample.sumOfTwoNumbersTests Sample.multiplyNumbersTests
                Sample.problem python Sample.code Sample.fresh Sample.suite)
      as [_ H].
    + vm_compute. reflexivity.
    + vm_compute. reflexivity.
    + destruct H as [_ H]; [intros i _; reflexivity|]. exact H.
Defined.

(** C4 as stated fails.  In [part_000], with two test cases: after a
    problem or language change made while the first call is pending,
    the array that the first iteration publishes has one slot; after
    such a change made while the second call is pending, the final
    state has a hole at index 0.  In [App.tsx] the change itself
    publishes an empty array between the arrays of the run. *)
Lemma part000_array_loses_length_and_numbering :
  let early := (Amid.part000_runCode Sample.service (Scenario.change_during 0)
                  Sample.sumOfTwoNumbersTests Sample.multiplyNumbersTests
                  Sample.problem python Sample.code Sample.fresh).2 in
  let late := (Amid.part000_runCode Sample.service (Scenario.change_during 1)
                 Sample.sumOfTwoNumbersTests Sample.multiplyNumbersTests
                 Sample.problem python Sample.code Sample.fresh).2 in
  let a := (Amid.client_runCode Sample.service (Scenario.change_during 1)
              Sample.sumOfTwoNumbersTests Sample.multiplyNumbersTests
              Sample.problem python Sample.code Sample.fresh).2 in
  let first := passedResult 1 (TestCase.mk (lit "2 3") (lit "5")) (lit "5")
                 (Sample.response (lit "5" ++ LF)) in
  length (TestSuite.testCases Sample.suite) = 2
  ∧ during Sample.fresh early !! 2 = Some [Some first]
  ∧ results late = [None; Some (apiError 2 (Val (lit "Network Error")))]
  ∧ ¬ well_numbered 2 (results late)
  ∧ during Sample.fresh a !! 2 = Some [].
Proof.
  intros early late a first.
  assert (results late = [None; Some (apiError 2 (Val (lit "Network Error")))])
    as E by (vm_compute; reflexivity).
  split; [reflexivity|]. split; [vm_compute; reflexivity|].
  split; [exact E|]. split; [|vm_compute; reflexivity].
  rewrite E. intros [_ H]. destruct (H 0) as (r & Hr & _); [lia|]. discriminate Hr.
Qed.




(** X7. The counters follow the run.  On the [k]-th array that a run of
    [App.tsx] itself publishes the passed and failed counts add up to
    [k], and on the state it ends with they add up to the number of test
    cases, whatever problem or language changes are made meanwhile; in
    [part_000] the same holds of a run during which no such change is
    made. *)
Theorem counters_follow_the_arrays_of_a_run
    (service : nat → Submission → Outcome) (changes : nat → nat)
    (sumOfTwoNumbersTests multiplyNumbersTests : Language → option TestSuite.t)
    (problem : Problem.t) (language : Language) (code : jsstring)
    (w : World) (suite : TestSuite.t) :
  Client.testSuite sumOfTwoNumbersTests multiplyNumbersTests problem language
    = Some suite →
  Part000.testCases sumOfTwoNumbersTests multiplyNumbersTests problem language
    = Some suite →
  let n := length (TestSuite.testCases suite) in
  let a := (Amid.client_runCode service changes sumOfTwoNumbersTests
              multiplyNumbersTests problem language code w).2 in
  let b := (Amid.part000_runCode service changes sumOfTwoNumbersTests
              multiplyNumbersTests problem language code w).2 in
  (∃ own, during w a = woven changes own ∧ length own = n + 1
          ∧ counted n own (results a))
  ∧ (quiet n changes →
     length (during w b) = n + 1 ∧ counted n (during w b) (results b)).
Proof.
  intros Ha Hb n a b. split.
  - destruct (amid_client_runCode service changes sumOfTwoNumbersTests
                multiplyNumbersTests problem language code w)
      as (Hr & _ & _ & _ & _ & Hd).
    fold a in Hr, Hd. eexists. split; [exact Hd|]. rewrite Hr.
    split; [|by apply client_counted].
    apply (client_run service _ _ _ _ code w _ Ha).
  - intros Hq. unfold b.
    rewrite (amid_part000_runCode_quiet service changes _ _ _ _ code w _ Hb Hq).
    split; [|by apply part000_counted].
    apply (part000_run service _ _ _ _ code w _ Hb).
Qed.

Lemma counters_follow_the_arrays_of_a_run_witness :
  let a := (Amid.client_runCode Sample.service (Scenario.change_during 0)
              Sample.sumOfTwoNumbersTests Sample.multiplyNumbersTests
              Sample.problem python Sample.code Sample.fresh).2 in
  let b := (Amid.part000_runCode Sample.service Scenario.none
              Sample.sumOfTwoNumbersTests Sample.multiplyNumbersTests
              Sample.problem python Sample.code Sample.fresh).2 in
  (∃ own, during Sample.fresh a = woven (Scenario.change_during 0) own
          ∧ length own = 3 ∧ counted 2 own (results a))
  ∧ counted 2 (during Sample.fresh b) (results b).
Proof.
  intros a b. split.
  - destruct (counters_follow_the_arrays_of_a_run
                Sample.service (Scenario.change_during 0)
                Sample.sumOfTwoNumbersTests Sample.multiplyNumbersTests
                Sample.problem python Sample.code Sample.fresh Sample.suite)
      as [H _].
    + vm_compute. reflexivity.
    + vm_compute. reflexivity.
    + exact H.
  - destruct (counters_follow_the_arrays_of_a_run
                Sample.service Scenario.none
                Sample.sumOfTwoNumbersTests Sample.multiplyNumbersTests
                Sample.problem python Sample.code Sample.fresh Sample.suite)
      as [_ H].
    + vm_compute. reflexivity.
    + vm_compute. reflexivity.
    + destruct H as [_ H]; [intros i _; reflexivity|]. exact H.
Defined.


